(** * markdown2html: a shallow embedding of [markdown2html.py]

    The script converts a restricted Markdown dialect to HTML, one line at a
    time.  This development embeds

    - the Python string primitives the script relies on (module [Py]),
    - the MD5 digest of [hashlib] (module [MD5], after RFC 1321),
    - the four inline transforms and [process_line],
    - the block state machine of the [__main__] body, as a computation over
      the three loop variables and the output sink, in a monad in which a
      raised exception keeps the writes and assignments made before it,
    - the command-line entry point over a small model of the file system,

    and then states and proves the properties of the specification.

    Text is a [string] whose characters are read as the code points 0..255
    (ASCII and Latin-1); [Py.isspace_char], [Py.isalpha_char] and
    [Py.encode] agree with Python's [str] on that range. *)

From Stdlib Require Import String Ascii List ZArith NArith Bool Arith Lia.
Import ListNotations.
Open Scope string_scope.

(** ** Exceptions and results *)

Inductive exn : Type :=
| IndexError
| ValueError
| FileNotFoundError
| IsADirectoryError.

Inductive res (A : Type) : Type :=
| Ok (a : A)
| Raise (e : exn).
Arguments Ok {A} a.
Arguments Raise {A} e.

Definition res_bind {A B} (r : res A) (k : A -> res B) : res B :=
  match r with
  | Ok a => k a
  | Raise e => Raise e
  end.

Declare Scope res_scope.
Delimit Scope res_scope with res.
Notation "x <- r ;; k" := (res_bind r (fun x => k))
  (at level 61, r at next level, right associativity) : res_scope.

(** ** Python string primitives *)

Module Py.

Definition LF : ascii := "010"%char.
Definition CR : ascii := "013"%char.
Definition nl : string := String LF "".

Definition code (c : ascii) : N := N_of_ascii c.

(** [str.isspace] on one character, for the code points below 256. *)
Definition isspace_char (c : ascii) : bool :=
  let n := code c in
  ((9 <=? n) && (n <=? 13) || (28 <=? n) && (n <=? 32)
   || (n =? 133) || (n =? 160))%N.

(** [str.isalpha] on one character, for the code points below 256. *)
Definition isalpha_char (c : ascii) : bool :=
  let n := code c in
  ((65 <=? n) && (n <=? 90) || (97 <=? n) && (n <=? 122)
   || (n =? 170) || (n =? 181) || (n =? 186)
   || (192 <=? n) && (n <=? 214) || (216 <=? n) && (n <=? 246)
   || (248 <=? n))%N.

Fixpoint all_chars (p : ascii -> bool) (s : string) : bool :=
  match s with
  | "" => true
  | String c s' => p c && all_chars p s'
  end.

(** [s.isspace()]: at least one character, and all of them whitespace. *)
Definition isspace (s : string) : bool :=
  match s with
  | "" => false
  | _ => all_chars isspace_char s
  end.

(** [s.startswith(p)]. *)
Definition startswith (s p : string) : bool := String.prefix p s.

Fixpoint lstrip (s : string) : string :=
  match s with
  | "" => ""
  | String c s' => if isspace_char c then lstrip s' else s
  end.

Fixpoint rstrip (s : string) : string :=
  match s with
  | "" => ""
  | String c s' =>
      match rstrip s' with
      | "" => if isspace_char c then "" else String c ""
      | r => String c r
      end
  end.

(** [s.strip()]. *)
Definition strip (s : string) : string := rstrip (lstrip s).

(** [s[i]] for a non-negative index. *)
Definition getitem (s : string) (i : nat) : res ascii :=
  match String.get i s with
  | Some c => Ok c
  | None => Raise IndexError
  end.

(** [s.find(sub)]: the lowest index of [sub] in [s], or -1. *)
Definition find (s sub : string) : Z :=
  match String.index 0 sub s with
  | Some n => Z.of_nat n
  | None => (-1)%Z
  end.

(** [sub in s]. *)
Definition contains (s sub : string) : bool :=
  match String.index 0 sub s with
  | Some _ => true
  | None => false
  end.

(** A slice bound, as Python normalises it: a negative bound counts from the
    end, and the result is clamped to [0, len]. *)
Definition clamp (len : nat) (i : Z) : nat :=
  if (i <? 0)%Z then Z.to_nat (i + Z.of_nat len)
  else Nat.min (Z.to_nat i) len.

(** [s[lo:hi]]. *)
Definition slice (s : string) (lo hi : Z) : string :=
  let len := String.length s in
  let a := clamp len lo in
  let b := clamp len hi in
  String.substring a (b - a) s.

(** [s[lo:]]. *)
Definition slice_from (s : string) (lo : Z) : string :=
  slice s lo (Z.of_nat (String.length s)).

(** [s[:hi]]. *)
Definition slice_to (s : string) (hi : Z) : string := slice s 0 hi.

Definition cons_head (c : ascii) (parts : list string) : list string :=
  match parts with
  | [] => [String c ""]
  | p :: ps => String c p :: ps
  end.

(** The scan of [str.split(sep)] for a non-empty [sep]: left to right, cutting
    at each occurrence and resuming after it; [skip] counts the characters of
    the occurrence just cut that are still to be passed over. *)
Fixpoint split_go (sep : string) (skip : nat) (s : string) : list string :=
  match s with
  | "" => [""]
  | String c s' =>
      match skip with
      | S k => split_go sep k s'
      | O =>
          if String.prefix sep s
          then "" :: split_go sep (String.length sep - 1) s'
          else cons_head c (split_go sep 0 s')
      end
  end.

(** [s.split(sep)]; an empty separator raises [ValueError]. *)
Definition split (s sep : string) : res (list string) :=
  match sep with
  | "" => Raise ValueError
  | _ => Ok (split_go sep 0 s)
  end.

(** The scan of [str.count(sub)] for a non-empty [sub]: the occurrences met
    left to right without overlap, which are the ones [split] cuts at. *)
Fixpoint count_go (sub : string) (skip : nat) (s : string) : nat :=
  match s with
  | "" => 0
  | String c s' =>
      match skip with
      | S k => count_go sub k s'
      | O =>
          if String.prefix sub s
          then S (count_go sub (String.length sub - 1) s')
          else count_go sub 0 s'
      end
  end.

Definition count (s sub : string) : nat := count_go sub 0 s.

(** [''.join(parts)]. *)
Definition join (parts : list string) : string := String.concat "" parts.

(** [s.replace(old, new)] for a one-character [old]. *)
Fixpoint replace_char (s : string) (old : ascii) (new : string) : string :=
  match s with
  | "" => ""
  | String c s' =>
      if Ascii.eqb c old then new ++ replace_char s' old new
      else String c (replace_char s' old new)
  end.

(** [range(start, stop, 2)], with [fuel] bounding the number of elements. *)
Fixpoint range2 (fuel start stop : nat) : list nat :=
  match fuel with
  | O => []
  | S f => if (start <? stop)%nat then start :: range2 f (start + 2) stop else []
  end.

(** [parts[i] = v] for an index in range. *)
Fixpoint set_item (parts : list string) (i : nat) (v : string) : list string :=
  match parts, i with
  | [], _ => []
  | _ :: ps, O => v :: ps
  | p :: ps, S j => p :: set_item ps j v
  end.

Definition digit (n : nat) : ascii := ascii_of_nat (48 + n).

Fixpoint str_nat_go (fuel n : nat) (acc : string) : string :=
  match fuel with
  | O => acc
  | S f =>
      let acc' := String (digit (n mod 10)) acc in
      if (n <? 10)%nat then acc' else str_nat_go f (n / 10) acc'
  end.

(** [str(n)] for a non-negative integer: its decimal digits. *)
Definition str_nat (n : nat) : string := str_nat_go (S n) n "".

(** [s.encode()]: UTF-8, one byte below 128 and two bytes from 128 to 255. *)
Fixpoint encode (s : string) : list Z :=
  match s with
  | "" => []
  | String c s' =>
      let n := Z.of_N (code c) in
      if (n <? 128)%Z then n :: encode s'
      else Z.lor 192 (Z.shiftr n 6) :: Z.lor 128 (Z.land n 63) :: encode s'
  end.

End Py.

(** ** MD5 (RFC 1321), the digest behind [hashlib.md5(b).hexdigest()] *)

Module MD5.

Local Open Scope Z_scope.

Definition w32 (x : Z) : Z := x mod 4294967296.

(** Rotation to the left of a 32-bit word. *)
Definition rotl (x c : Z) : Z :=
  w32 (Z.lor (Z.shiftl x c) (Z.shiftr x (32 - c))).

(** Complement of a 32-bit word. *)
Definition not32 (x : Z) : Z := Z.lxor x 4294967295.

(** The additive constants, [floor (2^32 * abs (sin (i + 1)))]. *)
Definition K : list Z :=
  [ 0xd76aa478; 0xe8c7b756; 0x242070db; 0xc1bdceee;
    0xf57c0faf; 0x4787c62a; 0xa8304613; 0xfd469501;
    0x698098d8; 0x8b44f7af; 0xffff5bb1; 0x895cd7be;
    0x6b901122; 0xfd987193; 0xa679438e; 0x49b40821;
    0xf61e2562; 0xc040b340; 0x265e5a51; 0xe9b6c7aa;
    0xd62f105d; 0x02441453; 0xd8a1e681; 0xe7d3fbc8;
    0x21e1cde6; 0xc33707d6; 0xf4d50d87; 0x455a14ed;
    0xa9e3e905; 0xfcefa3f8; 0x676f02d9; 0x8d2a4c8a;
    0xfffa3942; 0x8771f681; 0x6d9d6122; 0xfde5380c;
    0xa4beea44; 0x4bdecfa9; 0xf6bb4b60; 0xbebfbc70;
    0x289b7ec6; 0xeaa127fa; 0xd4ef3085; 0x04881d05;
    0xd9d4d039; 0xe6db99e5; 0x1fa27cf8; 0xc4ac5665;
    0xf4292244; 0x432aff97; 0xab9423a7; 0xfc93a039;
    0x655b59c3; 0x8f0ccc92; 0xffeff47d; 0x85845dd1;
    0x6fa87e4f; 0xfe2ce6e0; 0xa3014314; 0x4e0811a1;
    0xf7537e82; 0xbd3af235; 0x2ad7d2bb; 0xeb86d391 ].

(** The rotation amounts of the four rounds. *)
Definition shifts : list Z :=
  [ 7; 12; 17; 22; 7; 12; 17; 22; 7; 12; 17; 22; 7; 12; 17; 22;
    5;  9; 14; 20; 5;  9; 14; 20; 5;  9; 14; 20; 5;  9; 14; 20;
    4; 11; 16; 23; 4; 11; 16; 23; 4; 11; 16; 23; 4; 11; 16; 23;
    6; 10; 15; 21; 6; 10; 15; 21; 6; 10; 15; 21; 6; 10; 15; 21 ].

Record regs : Type := Regs { rA : Z; rB : Z; rC : Z; rD : Z }.

Definition init : regs :=
  Regs 0x67452301 0xefcdab89 0x98badcfe 0x10325476.

(** One of the 64 operations on a block [M] of sixteen words. *)
Definition op (M : list Z) (r : regs) (i : nat) : regs :=
  let '(Regs a b c d) := r in
  let '(f, g) :=
    if (i <? 16)%nat then (Z.lor (Z.land b c) (Z.land (not32 b) d), i)
    else if (i <? 32)%nat then
      (Z.lor (Z.land d b) (Z.land (not32 d) c), ((5 * i + 1) mod 16)%nat)
    else if (i <? 48)%nat then
      (Z.lxor b (Z.lxor c d), ((3 * i + 5) mod 16)%nat)
    else (Z.lxor c (Z.lor b (not32 d)), ((7 * i) mod 16)%nat) in
  let f' := w32 (f + a + nth i K 0 + nth g M 0) in
  Regs d (w32 (b + rotl f' (nth i shifts 0))) b c.

Definition block (r : regs) (M : list Z) : regs :=
  let r' := fold_left (op M) (seq 0 64) r in
  Regs (w32 (rA r + rA r')) (w32 (rB r + rB r'))
       (w32 (rC r + rC r')) (w32 (rD r + rD r')).

(** The [n] low bytes of [x], least significant first. *)
Fixpoint le_bytes (n : nat) (x : Z) : list Z :=
  match n with
  | O => []
  | S k => x mod 256 :: le_bytes k (x / 256)
  end.

(** Bytes to 32-bit words, least significant byte first. *)
Fixpoint le_words (bs : list Z) : list Z :=
  match bs with
  | b0 :: b1 :: b2 :: b3 :: rest =>
      (b0 + 256 * (b1 + 256 * (b2 + 256 * b3))) :: le_words rest
  | _ => []
  end.

(** The message, a one bit, zeros up to 56 modulo 64, and the bit length. *)
Definition pad (msg : list Z) : list Z :=
  let len := Z.of_nat (length msg) in
  let zeros := Z.to_nat ((55 - len) mod 64) in
  msg ++ [128] ++ repeat 0 zeros ++ le_bytes 8 ((8 * len) mod 2 ^ 64).

Fixpoint blocks (n : nat) (ws : list Z) : list (list Z) :=
  match n with
  | O => []
  | S k => firstn 16 ws :: blocks k (skipn 16 ws)
  end.

Definition digest (msg : list Z) : list Z :=
  let ws := le_words (pad msg) in
  let r := fold_left block (blocks (length ws / 16) ws) init in
  le_bytes 4 (rA r) ++ le_bytes 4 (rB r)
    ++ le_bytes 4 (rC r) ++ le_bytes 4 (rD r).

Definition hex_digit (n : Z) : ascii :=
  if n <? 10 then ascii_of_nat (48 + Z.to_nat n)
  else ascii_of_nat (87 + Z.to_nat n).

Fixpoint hex (bs : list Z) : string :=
  match bs with
  | [] => ""
  | b :: rest => String (hex_digit (b / 16)) (String (hex_digit (b mod 16)) (hex rest))
  end.

(** [hashlib.md5(msg).hexdigest()]. *)
Definition hexdigest (msg : list Z) : string := hex (digest msg).

End MD5.

(** ** The inline transforms *)

Import Py.

Section Inline.

Local Open Scope res_scope.

(** [f'<{tag}>{text}</{tag}>']. *)
Definition wrapped (tag text : string) : string :=
  "<" ++ tag ++ ">" ++ text ++ "</" ++ tag ++ ">".

(** The body of the loop of [bold_emphasis]:
    [parts[index] = f'<{tag}>{parts[index]}</{tag}>']. *)
Definition wrap_at (tag : string) (parts : list string) (index : nat)
  : list string :=
  set_item parts index (wrapped tag (nth index parts "")).

(** [for index in range(1, len(parts), 2)] over that body. *)
Definition mark_pairs (tag : string) (parts : list string) : list string :=
  fold_left (wrap_at tag) (range2 (length parts) 1 (length parts)) parts.

(** ['b' if markdown == '**' else 'em']. *)
Definition tag_of (markdown : string) : string :=
  if String.eqb markdown "**" then "b" else "em".

Definition bold_emphasis (line markdown : string) : res string :=
  parts <- split line markdown ;;
  let tag := tag_of markdown in
  let parts := mark_pairs tag parts in
  let modified_line := join parts in
  Ok modified_line.

Definition text_to_md5 (text : string) : string :=
  if contains text "[[" && contains text "]]" then
    let opening := find text "[[" in
    let closing := find text "]]" in
    let to_md5 := slice text (opening + 2) closing in
    let hash_text := MD5.hexdigest (encode to_md5) in
    let merged_text :=
      slice_to text opening ++ hash_text ++ slice_from text (closing + 2) in
    merged_text
  else text.

Definition remove_c (text : string) : string :=
  if contains text "((" && contains text "))" then
    let opening := find text "((" in
    let closing := find text "))" in
    let to_replace := slice text (opening + 2) closing in
    let replaced := replace_char (replace_char to_replace "C" "") "c" "" in
    let merged_text :=
      slice_to text opening ++ replaced ++ slice_from text (closing + 2) in
    merged_text
  else text.

Definition process_line (line : string) : res string :=
  bold_text <- bold_emphasis line "**" ;;
  em_text <- bold_emphasis bold_text "__" ;;
  let hash_text := text_to_md5 em_text in
  let no_c_text := remove_c hash_text in
  Ok no_c_text.

End Inline.

(** ** The block state machine *)

(** The three variables of the conversion loop, and the text of the output
    file, which is opened for appending. *)
Record Conv : Type := MkConv {
  list_started : bool;
  paragraph_started : bool;
  list_type : string;
  htmlfile : string
}.

(** A step of the script: it may assign the variables, write to the file and
    raise; what it did before raising stays done. *)
Definition M (A : Type) : Type := Conv -> res A * Conv.

Definition ret {A} (a : A) : M A := fun c => (Ok a, c).

Definition bind {A B} (m : M A) (k : A -> M B) : M B :=
  fun c =>
    match m c with
    | (Ok a, c') => k a c'
    | (Raise e, c') => (Raise e, c')
    end.

Definition lift {A} (r : res A) : M A := fun c => (r, c).

Definition read {A} (var : Conv -> A) : M A := fun c => (Ok (var c), c).

Definition write (s : string) : M unit :=
  fun c =>
    (Ok tt, MkConv (list_started c) (paragraph_started c) (list_type c)
                   (htmlfile c ++ s)).

Definition set_list_started (b : bool) : M unit :=
  fun c => (Ok tt, MkConv b (paragraph_started c) (list_type c) (htmlfile c)).

Definition set_paragraph_started (b : bool) : M unit :=
  fun c => (Ok tt, MkConv (list_started c) b (list_type c) (htmlfile c)).

Definition set_list_type (t : string) : M unit :=
  fun c => (Ok tt, MkConv (list_started c) (paragraph_started c) t (htmlfile c)).

Declare Scope conv_scope.
Delimit Scope conv_scope with conv.
Notation "x <- m ;; k" := (bind m (fun x => k))
  (at level 61, m at next level, right associativity) : conv_scope.
Notation "m ;; k" := (bind m (fun _ => k))
  (at level 61, right associativity) : conv_scope.
Notation "'when' b 'then' m" := (if b then m else ret tt)
  (at level 60, b at level 9, m at level 60) : conv_scope.

(** The [while] loop of the heading branch: the length of the leading run of
    ['#'] characters. *)
Fixpoint hash_run (line : string) : nat :=
  match line with
  | String "#" rest => S (hash_run rest)
  | _ => 0
  end.

(** [line and line[0].isalpha()]. *)
Definition starts_alpha (line : string) : bool :=
  match line with
  | "" => false
  | String c _ => isalpha_char c
  end.

Section Blocks.

Local Open Scope conv_scope.

(** [if list_started: write '</{list_type}>\n'; list_started = False]. *)
Definition close_list : M unit :=
  started <- read list_started ;;
  when started then
    (kind <- read list_type ;;
     write ("</" ++ kind ++ ">" ++ nl) ;;
     set_list_started false).

(** [if paragraph_started: write '</p>\n'; paragraph_started = False]. *)
Definition close_paragraph : M unit :=
  started <- read paragraph_started ;;
  when started then
    (write ("</p>" ++ nl) ;;
     set_paragraph_started false).

Definition heading (line : string) : M unit :=
  close_list ;;
  close_paragraph ;;
  let line := strip line in
  let count := hash_run line in
  c <- lift (getitem line count) ;;
  when (Ascii.eqb c " ") then
    (let text := slice_from line (Z.of_nat count + 1) in
     head_text <- lift (process_line text) ;;
     write ("<h" ++ str_nat count ++ ">" ++ head_text
              ++ "</h" ++ str_nat count ++ ">" ++ nl)).

Definition listing (line : string) : M unit :=
  close_paragraph ;;
  let line := strip line in
  (if startswith line "- " then set_list_type "ul"
   else when (startswith line "* ") then set_list_type "ol") ;;
  let text := slice_from line 2 in
  started <- read list_started ;;
  when (negb started) then
    (kind <- read list_type ;;
     write ("<" ++ kind ++ ">" ++ nl) ;;
     set_list_started true) ;;
  list_text <- lift (process_line text) ;;
  write ("<li>" ++ list_text ++ "</li>" ++ nl).

Definition paragraph (line : string) : M unit :=
  close_list ;;
  started <- read paragraph_started ;;
  (if negb started then
     when (negb (isspace line)) then
       (set_paragraph_started true ;;
        write ("<p>" ++ nl))
   else
     if isspace line then
       write (nl ++ "</p>" ++ nl) ;;
       set_paragraph_started false
     else write (nl ++ "<br/>" ++ nl)) ;;
  let line := strip line in
  paragraph_text <- lift (process_line line) ;;
  write paragraph_text.

(** The paragraph condition of the classification chain. *)
Definition paragraph_eligible (line : string) : bool :=
  starts_alpha line || isspace line
  || startswith line "**" || startswith line "__"
  || startswith line "((" || startswith line "[[".

(** The body of [for line in mdfile]. *)
Definition body (line : string) : M unit :=
  if startswith line "#" then heading line
  else if startswith line "- " || startswith line "* " then listing line
  else if paragraph_eligible line then paragraph line
  else ret tt.

Fixpoint for_lines (mdfile : list string) : M unit :=
  match mdfile with
  | [] => ret tt
  | line :: rest => body line ;; for_lines rest
  end.

(** The two statements after the loop. *)
Definition flush : M unit :=
  started <- read list_started ;;
  when started then
    (kind <- read list_type ;;
     write ("</" ++ kind ++ ">" ++ nl)) ;;
  started <- read paragraph_started ;;
  when started then write (nl ++ "</p>" ++ nl).

(** The block under the two [with] statements. *)
Definition convert (mdfile : list string) : M unit :=
  for_lines mdfile ;; flush.

End Blocks.

(** The variables as the script initialises them, over a file that holds
    [sink] already. *)
Definition start (sink : string) : Conv := MkConv false false "" sink.

(** ** Reading the input *)

(** Text mode with universal newlines: ["\r\n"] and ["\r"] read as ["\n"]. *)
Fixpoint universal_newlines (s : string) : string :=
  match s with
  | "" => ""
  | String c rest =>
      if Ascii.eqb c CR then
        match rest with
        | String c' rest' =>
            if Ascii.eqb c' LF then String LF (universal_newlines rest')
            else String LF (universal_newlines rest)
        | "" => String LF ""
        end
      else String c (universal_newlines rest)
  end.

(** Iterating over a text file: each line with its terminator. *)
Fixpoint lines (s : string) : list string :=
  match s with
  | "" => []
  | String c rest =>
      if Ascii.eqb c LF then nl :: lines rest
      else cons_head c (lines rest)
  end.

Definition readlines (content : string) : list string :=
  lines (universal_newlines content).

(** What converting the document [content] appends to an empty file. *)
Definition html_of (content : string) : res unit * string :=
  let (r, c) := convert (readlines content) (start "") in (r, htmlfile c).

(** ** The command line *)

(** What a path names: a regular file, a directory, or a place in a
    directory that does not exist, where nothing can be opened or created. *)
Inductive node : Type :=
| File (content : string)
| Dir
| NoDirectory.

(** What a path names; [None] where nothing is yet and a file can be
    created.  Permissions are not modelled. *)
Definition fs : Type := string -> option node.

Inductive err_item : Type :=
| Printed (text : string)
| Traceback (e : exn).

Record World : Type := MkWorld {
  files : fs;
  stderr : list err_item
}.

(** [os.path.isfile]. *)
Definition isfile (f : fs) (path : string) : bool :=
  match f path with
  | Some (File _) => true
  | _ => false
  end.

(** [open(path)]: the text of the file. *)
Definition open_read (f : fs) (path : string) : res string :=
  match f path with
  | Some (File content) => Ok content
  | Some Dir => Raise IsADirectoryError
  | Some NoDirectory => Raise FileNotFoundError
  | None => Raise FileNotFoundError
  end.

(** [open(path, 'a')]: the text the file holds, none if it is created; it
    cannot be created in a directory that does not exist. *)
Definition open_append (f : fs) (path : string) : res string :=
  match f path with
  | Some (File content) => Ok content
  | Some Dir => Raise IsADirectoryError
  | Some NoDirectory => Raise FileNotFoundError
  | None => Ok ""
  end.

Definition store (f : fs) (path : string) (content : string) : fs :=
  fun p => if String.eqb p path then Some (File content) else f p.

(** [print(text, file=sys.stderr)]. *)
Definition eprint (w : World) (text : string) : World :=
  MkWorld (files w) (stderr w ++ [Printed (text ++ nl)]).

(** An exception nobody catches: the interpreter prints the traceback and
    exits with status 1. *)
Definition uncaught (w : World) (e : exn) : World * Z :=
  (MkWorld (files w) (stderr w ++ [Traceback e]), 1%Z).

Definition usage : string := "Usage: ./markdown2html.py README.md README.html".

(** The script, from the arguments after the program name to the world it
    leaves and its exit status.  The input is read as it stands when the
    script starts: this is the script when its two paths name different
    files.  When they name one existing file the script reads the file it is
    appending to, which this definition does not describe; every property of
    the converting branch below assumes [markdown_file <> html_file]. *)
Definition main (args : list string) (w : World) : World * Z :=
  match args with
  | markdown_file :: html_file :: _ =>
      if negb (isfile (files w) markdown_file) then
        (eprint w ("Missing " ++ markdown_file), 1%Z)
      else
        match open_read (files w) markdown_file with
        | Ok content =>
            match open_append (files w) html_file with
            | Ok sink =>
                let (r, c) := convert (readlines content) (start sink) in
                let w' := MkWorld (store (files w) html_file (htmlfile c))
                                  (stderr w) in
                match r with
                | Ok _ => (w', 0%Z)
                | Raise e => uncaught w' e
                end
            | Raise e => uncaught w e
            end
        | Raise e => uncaught w e
        end
  | _ => (eprint w usage, 1%Z)
  end.

(** ** Vocabulary of the properties *)

(** What [close_list] then [close_paragraph] write from the state [c]. *)
Definition closing_tags (c : Conv) : string :=
  (if list_started c then "</" ++ list_type c ++ ">" ++ nl else "")
  ++ (if paragraph_started c then "</p>" ++ nl else "").

(** What [flush] writes from the state [c]. *)
Definition flush_tags (c : Conv) : string :=
  (if list_started c then "</" ++ list_type c ++ ">" ++ nl else "")
  ++ (if paragraph_started c then nl ++ "</p>" ++ nl else "").

(** The value of [list_type] once [listing] has looked at the line. *)
Definition kind_after (line : string) (c : Conv) : string :=
  if startswith (strip line) "- " then "ul"
  else if startswith (strip line) "* " then "ol"
  else list_type c.

(** The state [heading] leaves once it has closed the open blocks. *)
Definition closed (c : Conv) : Conv :=
  MkConv false false (list_type c) (htmlfile c ++ closing_tags c).


(** The state [listing] leaves before it writes the item. *)
Definition opened (line : string) (c : Conv) : Conv :=
  MkConv true false (kind_after line c)
    (htmlfile c
       ++ (if paragraph_started c then "</p>" ++ nl else "")
       ++ (if list_started c then "" else "<" ++ kind_after line c ++ ">" ++ nl)).

(** The state [paragraph] leaves before it writes the text of the line. *)
Definition joined (line : string) (c : Conv) : Conv :=
  let closing := if list_started c then "</" ++ list_type c ++ ">" ++ nl else "" in
  if paragraph_started c then
    if isspace line then
      MkConv false false (list_type c) (htmlfile c ++ closing ++ nl ++ "</p>" ++ nl)
    else
      MkConv false true (list_type c) (htmlfile c ++ closing ++ nl ++ "<br/>" ++ nl)
  else
    if isspace line then
      MkConv false false (list_type c) (htmlfile c ++ closing)
    else
      MkConv false true (list_type c) (htmlfile c ++ closing ++ "<p>" ++ nl).

(** A line of [n] characters ['#']. *)
Definition hashes (n : nat) : string := string_of_list_ascii (repeat "#"%char n).

(** The world in which [path] is a regular file holding [content], and
    nothing else exists. *)
Definition only_file (path content : string) : World :=
  MkWorld (store (fun _ => None) path content) [].

(** At most one of the two blocks is open. *)
Definition exclusive (c : Conv) : Prop :=
  list_started c && paragraph_started c = false.

(** The heading class in the words of the specification: a run of one or
    more ['#'] at the start of the line, followed by a space. *)
Definition spec_heading_class (line : string) : bool :=
  (0 <? hash_run line)%nat
  && match String.get (hash_run line) line with
     | Some c => Ascii.eqb c " "
     | None => false
     end.

(** The list-item class in the words of the specification: the marker is
    looked for once the line has been trimmed. *)
Definition spec_list_class (line : string) : bool :=
  startswith (strip line) "- " || startswith (strip line) "* ".

(** The loop of [bold_emphasis] read part by part: [odd] tells whether the
    first part of [parts] stands at an odd index. *)
Fixpoint mark_alt (tag : string) (odd : bool) (parts : list string)
  : list string :=
  match parts with
  | [] => []
  | p :: ps => (if odd then wrapped tag p else p) :: mark_alt tag (negb odd) ps
  end.

(** [s] starts with the character [d]. *)
Definition first_is (d : ascii) (s : string) : bool :=
  match s with
  | "" => false
  | String x _ => Ascii.eqb x d
  end.

(** [s] ends with the character [d]. *)
Fixpoint last_is (d : ascii) (s : string) : bool :=
  match s with
  | "" => false
  | String x "" => Ascii.eqb x d
  | String _ rest => last_is d rest
  end.

(** [s] has the character [d] twice in a row. *)
Fixpoint adjacent (d : ascii) (s : string) : bool :=
  match s with
  | "" => false
  | String x rest => (Ascii.eqb x d && first_is d rest) || adjacent d rest
  end.

(** The delimiter made of the character [d] twice. *)
Definition twice (d : ascii) : string := String d (String d "").

(** [c] is neither ['C'] nor ['c']. *)
Definition not_c (ch : ascii) : bool :=
  negb (Ascii.eqb ch "C" || Ascii.eqb ch "c").

(** The lines on which the heading branch does not index past the end: those
    that do not start with ['#'], and those whose trimmed text goes on after
    its leading run of ['#']. *)
Definition safe_line (line : string) : bool :=
  negb (startswith line "#")
  || (hash_run (strip line) <? String.length (strip line))%nat.

(** The state [c] over a file that held [before] in front of its text. *)
Definition resink (before : string) (c : Conv) : Conv :=
  MkConv (list_started c) (paragraph_started c) (list_type c)
         (before ++ htmlfile c).

(** [html] is the item the list branch writes for [line]. *)
Definition item_of (line html : string) : Prop :=
  exists list_text,
    process_line (slice_from (strip line) 2) = Ok list_text /\
    html = "<li>" ++ list_text ++ "</li>" ++ nl.

(** [text] is what the paragraph branch writes for the text of [line]. *)
Definition text_of (line text : string) : Prop :=
  process_line (strip line) = Ok text.

(** * Properties *)

(** ** Splitting and pairing *)

Section SplitFacts.

Variable sep : string.

Lemma cons_head_length c parts :
  parts <> [] -> length (cons_head c parts) = length parts.
Proof. destruct parts; [congruence | reflexivity]. Qed.

Lemma split_go_nonempty skip s : split_go sep skip s <> [].
Proof.
  revert skip; induction s as [| c s IH]; intros skip; cbn [split_go].
  - easy.
  - destruct skip as [| k]; [| apply IH].
    destruct (String.prefix sep (String c s)); [easy |].
    specialize (IH 0). destruct (split_go sep 0 s); [congruence | easy].
Qed.

(** [split] yields one part more than [count] finds occurrences. *)
Lemma split_go_length skip s :
  length (split_go sep skip s) = S (count_go sep skip s).
Proof.
  revert skip; induction s as [| c s IH]; intros skip;
    cbn [split_go count_go]; [reflexivity |].
  destruct skip as [| k]; [| apply IH].
  destruct (String.prefix sep (String c s)); cbn [length].
  - now rewrite IH.
  - rewrite cons_head_length by apply split_go_nonempty. apply IH.
Qed.

End SplitFacts.

Section PairFacts.

Variable tag : string.

Lemma set_item_length parts i v : length (set_item parts i v) = length parts.
Proof.
  revert i; induction parts as [| p ps IH]; intros [| j]; simpl; auto.
Qed.

Lemma nth_set_item_same parts i v :
  i < length parts -> nth i (set_item parts i v) "" = v.
Proof.
  revert i; induction parts as [| p ps IH]; intros [| j] Hi; simpl in *;
    try lia; auto with arith.
Qed.

Lemma nth_set_item_other parts i j v :
  i <> j -> nth i (set_item parts j v) "" = nth i parts "".
Proof.
  revert i j; induction parts as [| p ps IH]; intros [| i] [| j] Hij; simpl;
    try reflexivity; try congruence.
  apply IH; congruence.
Qed.

Lemma wrap_at_length parts i : length (wrap_at tag parts i) = length parts.
Proof. apply set_item_length. Qed.

Lemma fold_wrap_length idxs parts :
  length (fold_left (wrap_at tag) idxs parts) = length parts.
Proof.
  revert parts; induction idxs as [| j idxs IH]; intros parts; simpl;
    [reflexivity |].
  now rewrite IH, wrap_at_length.
Qed.

(** An index the loop does not visit keeps its part. *)
Lemma fold_wrap_skipped idxs parts i :
  ~ In i idxs -> nth i (fold_left (wrap_at tag) idxs parts) "" = nth i parts "".
Proof.
  revert parts; induction idxs as [| j idxs IH]; intros parts Hi; simpl;
    [reflexivity |].
  rewrite IH by (intros H; apply Hi; now right).
  apply nth_set_item_other. intros ->. apply Hi. now left.
Qed.

(** An index the loop visits once has its part wrapped. *)
Lemma fold_wrap_visited idxs parts i :
  NoDup idxs -> In i idxs -> i < length parts ->
  nth i (fold_left (wrap_at tag) idxs parts) "" = wrapped tag (nth i parts "").
Proof.
  revert parts; induction idxs as [| j idxs IH]; intros parts Hnd Hin Hlt;
    simpl; [contradiction |].
  inversion Hnd as [| ? ? Hj Hnd']; subst.
  destruct Hin as [-> | Hin].
  - rewrite fold_wrap_skipped by assumption.
    unfold wrap_at. now rewrite nth_set_item_same.
  - rewrite IH; auto; [| now rewrite wrap_at_length].
    unfold wrap_at. rewrite nth_set_item_other; [reflexivity |].
    intros ->. contradiction.
Qed.

Lemma range2_bounds fuel start stop i :
  In i (range2 fuel start stop) ->
  start <= i < stop /\ Nat.even (i - start) = true.
Proof.
  revert start; induction fuel as [| f IH]; intros start; simpl;
    [contradiction |].
  destruct (Nat.ltb_spec start stop) as [Hlt | Hge]; [| contradiction].
  intros [<- | Hin].
  - rewrite Nat.sub_diag. split; [lia | reflexivity].
  - apply IH in Hin as [Hb He]. split; [lia |].
    replace (i - start) with (S (S (i - (start + 2)))) by lia.
    now rewrite Nat.even_succ_succ.
Qed.

Lemma range2_complete fuel start stop i :
  stop <= start + 2 * fuel ->
  start <= i < stop -> Nat.even (i - start) = true ->
  In i (range2 fuel start stop).
Proof.
  revert start; induction fuel as [| f IH]; intros start Hf Hb He; simpl;
    [lia |].
  destruct (Nat.ltb_spec start stop) as [Hlt | Hge]; [| lia].
  destruct (Nat.eq_dec i start) as [-> | Hne]; [now left | right].
  destruct (Nat.eq_dec i (S start)) as [-> | Hne'].
  - replace (S start - start) with 1 in He by lia. discriminate.
  - apply IH; [lia | lia |].
    replace (i - start) with (S (S (i - (start + 2)))) in He by lia.
    now rewrite Nat.even_succ_succ in He.
Qed.

Lemma range2_nodup fuel start stop : NoDup (range2 fuel start stop).
Proof.
  revert start; induction fuel as [| f IH]; intros start; simpl;
    [constructor |].
  destruct (Nat.ltb start stop); constructor; auto.
  intros Hin. apply range2_bounds in Hin. lia.
Qed.

(** The loop of [bold_emphasis] wraps the parts of odd index and no other. *)
Lemma mark_pairs_nth parts i :
  i < length parts ->
  nth i (mark_pairs tag parts) "" =
  if Nat.odd i then wrapped tag (nth i parts "") else nth i parts "".
Proof.
  intros Hi. unfold mark_pairs.
  destruct (Nat.odd i) eqn:Hodd.
  - apply fold_wrap_visited; auto using range2_nodup.
    destruct i as [| i]; [discriminate |].
    apply range2_complete; [lia | lia |].
    rewrite Nat.odd_succ in Hodd.
    now replace (S i - 1) with i by lia.
  - apply fold_wrap_skipped. intros Hin.
    apply range2_bounds in Hin as [Hb He].
    destruct i as [| i]; [lia |].
    replace (S i - 1) with i in He by lia.
    rewrite Nat.odd_succ in Hodd. congruence.
Qed.

Lemma mark_pairs_length parts : length (mark_pairs tag parts) = length parts.
Proof. apply fold_wrap_length. Qed.

Lemma last_as_nth (l : list string) :
  last l "" = nth (length l - 1) l "".
Proof.
  induction l as [| a [| b l] IH]; try reflexivity.
  change (last (a :: b :: l) "") with (last (b :: l) "").
  rewrite IH. simpl. now rewrite Nat.sub_0_r.
Qed.

End PairFacts.

(** ** [bold_emphasis] *)

Example count_without_overlap :
  count "***" "**" = 1 /\ count "****" "**" = 2 /\ count "a**b__c**" "**" = 2.
Proof. repeat split. Qed.

Example split_like_python :
  split "***" "**" = Ok [""; "*"] /\
  split "a**" "**" = Ok ["a"; ""] /\
  split "****" "**" = Ok [""; ""; ""] /\
  split "abc" "" = Raise ValueError.
Proof. repeat split. Qed.

Lemma split_ok line markdown :
  markdown <> "" -> split line markdown = Ok (split_go markdown 0 line).
Proof. destruct markdown; [congruence | reflexivity]. Qed.

Lemma bold_emphasis_ok line markdown :
  markdown <> "" ->
  bold_emphasis line markdown =
  Ok (join (mark_pairs (tag_of markdown) (split_go markdown 0 line))).
Proof. intros H. unfold bold_emphasis. now rewrite split_ok. Qed.

(** [process_line] never raises. *)
Lemma process_line_ok line : exists text, process_line line = Ok text.
Proof.
  unfold process_line.
  rewrite bold_emphasis_ok by discriminate. cbn [res_bind].
  rewrite bold_emphasis_ok by discriminate. cbn [res_bind].
  eexists; reflexivity.
Qed.

(** C2, as the code has it.  When the delimiter (['**'] or ['__']) occurs an
    odd number of times, [bold_emphasis] does not raise; the split has an even
    number of parts, every part of odd index is wrapped in the tag, and the
    final part, the text after the last occurrence, has an odd index: it is
    wrapped like the others, not left as it was. *)
Theorem C2_final_segment_is_wrapped (line markdown : string) :
  markdown = "**" \/ markdown = "__" ->
  Nat.odd (count line markdown) = true ->
  exists parts,
    split line markdown = Ok parts /\
    length parts = S (count line markdown) /\
    bold_emphasis line markdown
      = Ok (join (mark_pairs (tag_of markdown) parts)) /\
    (forall i, i < length parts ->
       nth i (mark_pairs (tag_of markdown) parts) "" =
       if Nat.odd i then wrapped (tag_of markdown) (nth i parts "")
       else nth i parts "") /\
    last (mark_pairs (tag_of markdown) parts) ""
      = wrapped (tag_of markdown) (last parts "").
Proof.
  intros Hm Hodd.
  assert (Hne : markdown <> "") by (destruct Hm; subst; discriminate).
  exists (split_go markdown 0 line).
  pose proof (split_go_length markdown 0 line) as Hlen.
  fold (count line markdown) in Hlen.
  repeat split.
  - now apply split_ok.
  - exact Hlen.
  - now apply bold_emphasis_ok.
  - intros i Hi. now apply mark_pairs_nth.
  - rewrite !last_as_nth, mark_pairs_length, Hlen.
    replace (S (count line markdown) - 1) with (count line markdown) by lia.
    rewrite mark_pairs_nth by lia. now rewrite Hodd.
Qed.

Lemma C2_final_segment_is_wrapped_witness :
  exists parts,
    split "a**b" "**" = Ok parts /\
    length parts = S (count "a**b" "**") /\
    bold_emphasis "a**b" "**" = Ok (join (mark_pairs (tag_of "**") parts)) /\
    (forall i, i < length parts ->
       nth i (mark_pairs (tag_of "**") parts) "" =
       if Nat.odd i then wrapped (tag_of "**") (nth i parts "")
       else nth i parts "") /\
    last (mark_pairs (tag_of "**") parts) ""
      = wrapped (tag_of "**") (last parts "").
Proof.
  apply (C2_final_segment_is_wrapped "a**b" "**").
  - left; reflexivity.
  - reflexivity.
Defined.

(** C2, as the specification words it, fails on ["a**b"]: the delimiter
    occurs once, the split is ["a"; "b"], and the final part ["b"] comes out
    wrapped. *)
Lemma C2_final_segment_not_left_unwrapped :
  Nat.odd (count "a**b" "**") = true /\
  split "a**b" "**" = Ok ["a"; "b"] /\
  bold_emphasis "a**b" "**" = Ok "a<b>b</b>" /\
  last (mark_pairs (tag_of "**") ["a"; "b"]) "" <> last ["a"; "b"] "".
Proof. repeat split; try reflexivity. vm_compute. discriminate. Qed.

(** ** [text_to_md5] and [process_line] on the example of the specification *)

(** The digests of RFC 1321, section A.5. *)
Example md5_empty : MD5.hexdigest (encode "") = "d41d8cd98f00b204e9800998ecf8427e".
Proof. vm_compute. reflexivity. Qed.

Example md5_abc : MD5.hexdigest (encode "abc") = "900150983cd24fb0d6963f7d28e17f72".
Proof. vm_compute. reflexivity. Qed.

Example md5_message_digest :
  MD5.hexdigest (encode "message digest") = "f96b697d7cb7938d525a2f31aaf161d0".
Proof. vm_compute. reflexivity. Qed.

Example md5_two_blocks :
  MD5.hexdigest (encode "12345678901234567890123456789012345678901234567890123456789012345678901234567890")
  = "57edf4a22be3c955ac49da2e2107b67a".
Proof. vm_compute. reflexivity. Qed.

Lemma hex_length bs : String.length (MD5.hex bs) = 2 * length bs.
Proof. induction bs as [| b bs IH]; simpl; [reflexivity | rewrite IH; lia]. Qed.

(** A digest is always 32 hexadecimal characters. *)
Lemma hexdigest_length msg : String.length (MD5.hexdigest msg) = 32.
Proof.
  unfold MD5.hexdigest, MD5.digest. rewrite hex_length.
  now rewrite !length_app.
Qed.

(** C7.  On ["a[[foo]]b"], [process_line] returns ["a"], the MD5 digest of
    the bytes of ["foo"] as 32 lowercase hexadecimal characters, then ["b"];
    neither ['[['] nor [']]'] remains. *)
Theorem C7_process_line_hashes_foo :
  process_line "a[[foo]]b" = Ok ("a" ++ MD5.hexdigest (encode "foo") ++ "b") /\
  encode "foo" = [102; 111; 111]%Z /\
  MD5.hexdigest (encode "foo") = "acbd18db4cc2f85cedef654fccc4a4d8" /\
  String.length (MD5.hexdigest (encode "foo")) = 32 /\
  contains ("a" ++ MD5.hexdigest (encode "foo") ++ "b") "[[" = false /\
  contains ("a" ++ MD5.hexdigest (encode "foo") ++ "b") "]]" = false.
Proof. repeat split; vm_compute; reflexivity. Qed.

(** ** Text and the branches of the machine *)

Lemma append_assoc (a b c : string) : (a ++ b) ++ c = a ++ (b ++ c).
Proof. induction a as [| x a IH]; simpl; [reflexivity | now rewrite IH]. Qed.

Lemma append_empty_r (a : string) : a ++ "" = a.
Proof. induction a as [| x a IH]; simpl; [reflexivity | now rewrite IH]. Qed.

Ltac text :=
  repeat (progress (cbn [append nl]; rewrite ?append_assoc, ?append_empty_r)).

Lemma close_blocks {A} (k : M A) c :
  bind close_list (fun _ => bind close_paragraph (fun _ => k)) c = k (closed c).
Proof.
  destruct c as [[] [] kind sink]; unfold closed, closing_tags; cbn; text;
    reflexivity.
Qed.

Lemma heading_eq line c :
  heading line c =
  match getitem (strip line) (hash_run (strip line)) with
  | Raise e => (Raise e, closed c)
  | Ok ch =>
      if Ascii.eqb ch " " then
        match process_line (slice_from (strip line)
                              (Z.of_nat (hash_run (strip line)) + 1)) with
        | Ok head_text =>
            write ("<h" ++ str_nat (hash_run (strip line)) ++ ">" ++ head_text
                   ++ "</h" ++ str_nat (hash_run (strip line)) ++ ">" ++ nl)
                  (closed c)
        | Raise e => (Raise e, closed c)
        end
      else (Ok tt, closed c)
  end.
Proof.
  unfold heading. rewrite close_blocks.
  unfold bind, lift.
  destruct (getitem _ _) as [ch |]; [| reflexivity].
  destruct (Ascii.eqb ch " "); [| reflexivity].
  destruct (process_line _); reflexivity.
Qed.

Lemma listing_eq line c :
  listing line c =
  match process_line (slice_from (strip line) 2) with
  | Ok list_text => write ("<li>" ++ list_text ++ "</li>" ++ nl) (opened line c)
  | Raise e => (Raise e, opened line c)
  end.
Proof.
  unfold listing, opened, kind_after.
  destruct c as [ls ps kind sink].
  destruct (startswith (strip line) "- "), (startswith (strip line) "* "),
    ls, ps; cbn -[process_line slice_from strip]; text;
    destruct (process_line _); reflexivity.
Qed.

Lemma paragraph_eq line c :
  paragraph line c =
  match process_line (strip line) with
  | Ok paragraph_text => write paragraph_text (joined line c)
  | Raise e => (Raise e, joined line c)
  end.
Proof.
  unfold paragraph, joined.
  destruct c as [ls ps kind sink].
  destruct (isspace line), ls, ps; cbn -[process_line strip]; text;
    destruct (process_line _); reflexivity.
Qed.

(** ** Classification *)

Lemma prefix_cons a p b s :
  String.prefix (String a p) (String b s) = Ascii.eqb a b && String.prefix p s.
Proof.
  cbn [String.prefix]. destruct (ascii_dec a b) as [-> | Hne].
  - now rewrite Ascii.eqb_refl.
  - apply Ascii.eqb_neq in Hne. now rewrite Hne.
Qed.

Lemma startswith_cons ch rest a p :
  startswith (String ch rest) (String a p) = Ascii.eqb a ch && startswith rest p.
Proof. apply prefix_cons. Qed.

Lemma startswith_empty s : startswith s "" = true.
Proof. destruct s; reflexivity. Qed.

Lemma startswith_app s p :
  startswith s p = true -> exists rest, s = p ++ rest.
Proof.
  revert s; induction p as [| a p IH]; intros s H.
  - now exists s.
  - destruct s as [| b s]; [discriminate |].
    rewrite startswith_cons in H. apply andb_prop in H as [Hab Hp].
    apply Ascii.eqb_eq in Hab as ->.
    destruct (IH _ Hp) as [rest ->]. now exists rest.
Qed.

Lemma all_chars_app p a b :
  all_chars p (a ++ b) = all_chars p a && all_chars p b.
Proof.
  induction a as [| x a IH]; simpl; [reflexivity |].
  now rewrite IH, andb_assoc.
Qed.

(** A paragraph line is neither a heading line nor a list item. *)
Lemma eligible_is_paragraph line c :
  paragraph_eligible line = true -> body line c = paragraph line c.
Proof.
  intros H. unfold body.
  destruct (startswith line "#") eqn:Hh.
  { apply startswith_app in Hh as [rest ->]. discriminate H. }
  destruct (startswith line "- ") eqn:Hu.
  { apply startswith_app in Hu as [rest ->]. discriminate H. }
  destruct (startswith line "* ") eqn:Ho.
  { apply startswith_app in Ho as [rest ->]. discriminate H. }
  cbn [orb]. now rewrite H.
Qed.

Lemma space_is_no_marker ch :
  isspace_char ch = true ->
  isalpha_char ch = false /\
  Ascii.eqb "#" ch = false /\ Ascii.eqb "-" ch = false /\
  Ascii.eqb "*" ch = false /\ Ascii.eqb "_" ch = false /\
  Ascii.eqb "(" ch = false /\ Ascii.eqb "[" ch = false.
Proof.
  destruct ch as [[] [] [] [] [] [] [] []]; vm_compute; intros H;
    try discriminate H; repeat split.
Qed.

Lemma closed_idle c :
  list_started c = false -> paragraph_started c = false -> closed c = c.
Proof.
  destruct c as [ls ps kind sink]; cbn; intros -> ->.
  unfold closed, closing_tags; cbn. now rewrite append_empty_r.
Qed.

(** ** The heading branch *)

Lemma rstrip_hashes n : rstrip (hashes n ++ nl) = hashes n.
Proof.
  induction n as [| n IH]; [reflexivity |].
  change (hashes (S n) ++ nl) with (String "#" (hashes n ++ nl)).
  cbn [rstrip]. rewrite IH. destruct n; reflexivity.
Qed.

Lemma hash_run_hashes n : hash_run (hashes n) = n.
Proof.
  induction n as [| n IH]; [reflexivity |].
  change (hashes (S n)) with (String "#" (hashes n)).
  cbn [hash_run]. now rewrite IH.
Qed.

Lemma get_hashes_end n : String.get n (hashes n) = None.
Proof. induction n as [| n IH]; [reflexivity | exact IH]. Qed.

(** A line of ['#'] characters alone makes the heading branch index past the
    end of the trimmed line. *)
Lemma hash_only_line_raises n c :
  body (hashes (S n) ++ nl) c = (Raise IndexError, closed c).
Proof.
  unfold body.
  change (hashes (S n) ++ nl) with (String "#" (hashes n ++ nl)) at 1.
  rewrite startswith_cons, startswith_empty. cbn [Ascii.eqb Bool.eqb andb].
  rewrite heading_eq.
  change (strip (hashes (S n) ++ nl)) with (rstrip (hashes (S n) ++ nl)).
  rewrite rstrip_hashes, hash_run_hashes.
  unfold getitem. now rewrite get_hashes_end.
Qed.

(** When the run is followed by a character that is not a space, the branch
    writes no heading: it only closes what was open. *)
Lemma hash_run_without_space line c ch :
  startswith line "#" = true ->
  getitem (strip line) (hash_run (strip line)) = Ok ch ->
  Ascii.eqb ch " " = false ->
  body line c = (Ok tt, closed c).
Proof.
  intros Hh Hch Hsp. unfold body. now rewrite Hh, heading_eq, Hch, Hsp.
Qed.

(** C1 fails on the code.  On the line ["#\n"] the heading branch trims the
    line to ["#"], counts one ['#'], and reads [line[1]], which is past the
    end: [IndexError].  The same happens on ["###\n"] and on ["# \n"], whose
    space is trimmed away.  Nobody catches the exception, so the script ends
    with the traceback and status 1 instead of going on to the next line. *)
Theorem C1_hash_only_line_raises :
  body ("#" ++ nl) (start "") = (Raise IndexError, start "") /\
  body ("###" ++ nl) (start "") = (Raise IndexError, start "") /\
  body ("# " ++ nl) (start "") = (Raise IndexError, start "") /\
  html_of ("#" ++ nl ++ "text" ++ nl) = (Raise IndexError, "") /\
  (let (w, status) :=
     main ["README.md"; "README.html"] (only_file "README.md" ("#" ++ nl)) in
   stderr w = [Traceback IndexError] /\ status = 1%Z).
Proof. repeat split; vm_compute; reflexivity. Qed.

(** C10.  Whatever follows it, a line that starts with ['#'] first has the
    closing tag of the open list (['</ul>'] or ['</ol>'], after [list_type])
    and the ['</p>'] of the open paragraph written, in that order, and both
    flags cleared; [list_type] is kept.  What is written after them is
    nothing, or the heading. *)
Theorem C10_hash_line_closes_open_blocks (line : string) (c : Conv) :
  startswith line "#" = true ->
  exists after,
    htmlfile (snd (body line c)) = htmlfile c ++ closing_tags c ++ after /\
    list_started (snd (body line c)) = false /\
    paragraph_started (snd (body line c)) = false /\
    list_type (snd (body line c)) = list_type c /\
    (after = "" \/
     exists head_text,
       fst (body line c) = Ok tt /\
       after = "<h" ++ str_nat (hash_run (strip line)) ++ ">" ++ head_text
                 ++ "</h" ++ str_nat (hash_run (strip line)) ++ ">" ++ nl).
Proof.
  intros Hh. unfold body. rewrite Hh, heading_eq.
  destruct (getitem _ _) as [ch |].
  2: { exists ""; cbn; rewrite append_empty_r; auto 6. }
  destruct (Ascii.eqb ch " ").
  2: { exists ""; cbn; rewrite append_empty_r; auto 6. }
  destruct (process_line_ok (slice_from (strip line)
              (Z.of_nat (hash_run (strip line)) + 1))) as [text ->].
  eexists; cbn; rewrite append_assoc; repeat split; eauto.
Qed.

Lemma C10_hash_line_closes_open_blocks_witness :
  let line := "#x" ++ nl in
  let c := MkConv false true "" ("<p>" ++ nl ++ "Hello") in
  startswith line "#" = true /\
  exists after,
    htmlfile (snd (body line c)) = htmlfile c ++ closing_tags c ++ after /\
    list_started (snd (body line c)) = false /\
    paragraph_started (snd (body line c)) = false /\
    list_type (snd (body line c)) = list_type c /\
    (after = "" \/
     exists head_text,
       fst (body line c) = Ok tt /\
       after = "<h" ++ str_nat (hash_run (strip line)) ++ ">" ++ head_text
                 ++ "</h" ++ str_nat (hash_run (strip line)) ++ ">" ++ nl).
Proof.
  intros line c. split; [reflexivity |].
  apply (C10_hash_line_closes_open_blocks line c). reflexivity.
Defined.

(** C3, as the code has it.  A line that is no list item and no paragraph
    line is dropped, nothing written and no variable changed, when it does
    not start with ['#'], and also when it starts with a run of ['#'] followed
    by a character other than a space while neither block is open. *)
Theorem C3_unclassified_line_dropped (line : string) (c : Conv) :
  startswith line "- " = false ->
  startswith line "* " = false ->
  paragraph_eligible line = false ->
  startswith line "#" = false \/
  (list_started c = false /\ paragraph_started c = false /\
   exists ch, getitem (strip line) (hash_run (strip line)) = Ok ch
              /\ Ascii.eqb ch " " = false) ->
  body line c = (Ok tt, c).
Proof.
  intros Hu Ho Hp H. unfold body. rewrite Hu, Ho, Hp. cbn [orb].
  destruct (startswith line "#") eqn:Hh; [| reflexivity].
  destruct H as [H | (Hl & Hq & ch & Hch & Hsp)]; [discriminate |].
  rewrite heading_eq, Hch, Hsp. now rewrite closed_idle.
Qed.

Lemma C3_unclassified_line_dropped_witness :
  let line := "1. item" ++ nl in
  let c := MkConv true false "ul" ("<ul>" ++ nl ++ "<li>one</li>" ++ nl) in
  let line' := "#x" ++ nl in
  (startswith line "- " = false /\
   startswith line "* " = false /\
   paragraph_eligible line = false /\
   startswith line "#" = false /\
   body line c = (Ok tt, c)) /\
  (startswith line' "- " = false /\
   startswith line' "* " = false /\
   paragraph_eligible line' = false /\
   getitem (strip line') (hash_run (strip line')) = Ok "x"%char /\
   body line' (start "") = (Ok tt, start "")).
Proof.
  intros line c line'. split.
  - do 4 (split; [reflexivity |]).
    apply (C3_unclassified_line_dropped line c); try reflexivity.
    left; reflexivity.
  - do 4 (split; [reflexivity |]).
    apply (C3_unclassified_line_dropped line' (start "")); try reflexivity.
    right. do 2 (split; [reflexivity |]).
    exists "x"%char. split; reflexivity.
Defined.

(** C3, as the specification words it, fails on ["#x\n"] met while a
    paragraph is open: the line is in none of the three classes, yet the
    heading branch closes the paragraph, which writes ['</p>'] and clears the
    flag. *)
Lemma C3_hash_line_changes_state :
  let line := "#x" ++ nl in
  let c := MkConv false true "" ("<p>" ++ nl ++ "Hello") in
  spec_heading_class line = false /\
  startswith line "- " || startswith line "* " = false /\
  paragraph_eligible line = false /\
  body line c
  = (Ok tt, MkConv false false "" ("<p>" ++ nl ++ "Hello</p>" ++ nl)) /\
  body line c <> (Ok tt, c).
Proof. repeat split; try reflexivity. vm_compute. discriminate. Qed.

(** C4, as the code has it.  A paragraph line that is not whitespace, met
    while no paragraph is open, has written: the closing tag of the list if
    one was open, then ['<p>'], a newline, and the transformed, trimmed text
    of the line, with nothing after it.  The paragraph is then open. *)
Theorem C4_paragraph_opens_with_newline (line : string) (c : Conv) :
  paragraph_eligible line = true ->
  isspace line = false ->
  paragraph_started c = false ->
  exists text,
    process_line (strip line) = Ok text /\
    body line c =
    (Ok tt,
     MkConv false true (list_type c)
       (htmlfile c
          ++ (if list_started c then "</" ++ list_type c ++ ">" ++ nl else "")
          ++ "<p>" ++ nl ++ text)).
Proof.
  intros He Hs Hp.
  destruct (process_line_ok (strip line)) as [text Ht].
  exists text. split; [exact Ht |].
  rewrite eligible_is_paragraph, paragraph_eq, Ht by assumption.
  unfold joined. rewrite Hp, Hs. unfold write; cbn.
  now rewrite !append_assoc.
Qed.

Lemma C4_paragraph_opens_with_newline_witness :
  let line := "Hello" ++ nl in
  let c := start "" in
  paragraph_eligible line = true /\
  isspace line = false /\
  paragraph_started c = false /\
  exists text,
    process_line (strip line) = Ok text /\
    body line c =
    (Ok tt,
     MkConv false true (list_type c)
       (htmlfile c
          ++ (if list_started c then "</" ++ list_type c ++ ">" ++ nl else "")
          ++ "<p>" ++ nl ++ text)).
Proof.
  intros line c. do 3 (split; [reflexivity |]).
  apply (C4_paragraph_opens_with_newline line c); reflexivity.
Defined.

(** C4, as the specification words it, fails on ["Hello\n"] at the start of
    a document: what is written is ['<p>'], a newline, then ["Hello"], not
    ["<p>Hello"]. *)
Lemma C4_newline_after_p_tag :
  let line := "Hello" ++ nl in
  paragraph_eligible line = true /\
  isspace line = false /\
  process_line (strip line) = Ok "Hello" /\
  body line (start "") = (Ok tt, MkConv false true "" ("<p>" ++ nl ++ "Hello")) /\
  htmlfile (snd (body line (start ""))) <> "<p>" ++ "Hello".
Proof. repeat split; try reflexivity. vm_compute. discriminate. Qed.

Lemma marker_is_no_space line :
  startswith line "- " || startswith line "* " = true ->
  all_chars isspace_char line = false.
Proof.
  intros H. apply orb_prop in H as [H | H];
    apply startswith_app in H as [rest ->]; reflexivity.
Qed.

(** C5, as the code has it.  The marker (['- '] or ['* ']) is looked for on
    the line as read.  A line that starts with it is a list item, and the
    text of the item is what follows the first two characters of the trimmed
    line; the same line with whitespace in front of the marker is no list
    item: it is dropped, nothing written and no variable changed. *)
Theorem C5_list_marker_checked_on_raw_line (line : string) (c : Conv) :
  startswith line "- " || startswith line "* " = true ->
  (exists list_text,
     process_line (slice_from (strip line) 2) = Ok list_text /\
     body line c =
     (Ok tt,
      MkConv true false (kind_after line c)
        (htmlfile c
           ++ (if paragraph_started c then "</p>" ++ nl else "")
           ++ (if list_started c then ""
               else "<" ++ kind_after line c ++ ">" ++ nl)
           ++ "<li>" ++ list_text ++ "</li>" ++ nl))) /\
  (forall ws, isspace ws = true -> body (ws ++ line) c = (Ok tt, c)).
Proof.
  intros Hm. split.
  - destruct (process_line_ok (slice_from (strip line) 2)) as [text Ht].
    exists text. split; [exact Ht |].
    unfold body.
    assert (Hh : startswith line "#" = false).
    { apply orb_prop in Hm as [H | H];
        apply startswith_app in H as [rest ->]; reflexivity. }
    rewrite Hh, Hm, listing_eq, Ht. unfold write, opened; cbn.
    now rewrite !append_assoc.
  - intros [| ch ws] Hws; [discriminate |].
    cbn in Hws. apply andb_prop in Hws as [Hch Hws].
    destruct (space_is_no_marker ch Hch) as (Ha & H1 & H2 & H3 & H4 & H5 & H6).
    unfold body, paragraph_eligible.
    cbn [append starts_alpha isspace all_chars].
    rewrite !startswith_cons, H1, H2, H3, H4, H5, H6, Ha, Hch.
    rewrite all_chars_app, (marker_is_no_space line Hm), andb_false_r.
    reflexivity.
Qed.

Lemma C5_list_marker_checked_on_raw_line_witness :
  let line := "- one" ++ nl in
  let c := start "" in
  startswith line "- " || startswith line "* " = true /\
  (exists list_text,
     process_line (slice_from (strip line) 2) = Ok list_text /\
     body line c =
     (Ok tt,
      MkConv true false (kind_after line c)
        (htmlfile c
           ++ (if paragraph_started c then "</p>" ++ nl else "")
           ++ (if list_started c then ""
               else "<" ++ kind_after line c ++ ">" ++ nl)
           ++ "<li>" ++ list_text ++ "</li>" ++ nl))) /\
  (forall ws, isspace ws = true -> body (ws ++ line) c = (Ok tt, c)).
Proof.
  intros line c. split; [reflexivity |].
  apply (C5_list_marker_checked_on_raw_line line c). reflexivity.
Defined.

(** C5, as the specification words it, fails on ["  - x\n"]: trimmed, the
    line starts with ['- '], but the script looks at the line as read, finds
    no marker, and drops the line instead of writing a list item. *)
Lemma C5_indented_marker_is_no_item :
  let line := "  - x" ++ nl in
  spec_list_class line = true /\
  startswith line "- " || startswith line "* " = false /\
  body line (start "") = (Ok tt, start "") /\
  htmlfile (snd (body line (start "")))
  <> "<ul>" ++ nl ++ "<li>x</li>" ++ nl.
Proof. repeat split; try reflexivity. vm_compute. discriminate. Qed.

(** Only the heading branch can raise. *)
Lemma body_ok_unless_hash line c :
  startswith line "#" = false -> fst (body line c) = Ok tt.
Proof.
  intros Hh. unfold body. rewrite Hh.
  destruct (startswith line "- " || startswith line "* ").
  { rewrite listing_eq.
    now destruct (process_line_ok (slice_from (strip line) 2)) as [t ->]. }
  destruct (paragraph_eligible line); [| reflexivity].
  rewrite paragraph_eq.
  now destruct (process_line_ok (strip line)) as [t ->].
Qed.

(** ** The invariant *)

(** The loop over a document goes through the state it reaches after any
    of its prefixes, unless it raised before. *)
Lemma for_lines_app seen rest c :
  for_lines (seen ++ rest) c =
  match for_lines seen c with
  | (Ok _, c') => for_lines rest c'
  | (Raise e, c') => (Raise e, c')
  end.
Proof.
  revert c; induction seen as [| line seen IH]; intros c; [reflexivity |].
  cbn [app for_lines]. unfold bind.
  destruct (body line c) as [[[] | e] c']; [apply IH | reflexivity].
Qed.

Lemma body_exclusive line c : exclusive c -> exclusive (snd (body line c)).
Proof.
  intros Hc. unfold body.
  destruct (startswith line "#").
  { rewrite heading_eq. destruct (getitem _ _) as [ch |]; [| reflexivity].
    destruct (Ascii.eqb ch " "); [| reflexivity].
    destruct (process_line _); reflexivity. }
  destruct (startswith line "- " || startswith line "* ").
  { rewrite listing_eq. destruct (process_line _); reflexivity. }
  destruct (paragraph_eligible line); [| exact Hc].
  rewrite paragraph_eq. unfold joined.
  destruct (process_line _), (paragraph_started c), (isspace line); reflexivity.
Qed.

Lemma for_lines_exclusive mdfile c :
  exclusive c -> exclusive (snd (for_lines mdfile c)).
Proof.
  revert c; induction mdfile as [| line rest IH]; intros c Hc; [exact Hc |].
  cbn [for_lines]. unfold bind.
  pose proof (body_exclusive line c Hc) as Hb.
  destruct (body line c) as [[[] | e] c']; [apply IH |]; exact Hb.
Qed.

Lemma flush_eq c :
  flush c =
  (Ok tt, MkConv (list_started c) (paragraph_started c) (list_type c)
                 (htmlfile c ++ flush_tags c)).
Proof.
  destruct c as [[] [] kind sink]; unfold flush_tags; cbn; unfold write; cbn;
    text; reflexivity.
Qed.

Lemma convert_exclusive mdfile c :
  exclusive c -> exclusive (snd (convert mdfile c)).
Proof.
  intros Hc. unfold convert, bind.
  pose proof (for_lines_exclusive mdfile c Hc) as Hf.
  destruct (for_lines mdfile c) as [[[] | e] c']; [| exact Hf].
  rewrite flush_eq. exact Hf.
Qed.

(** C8, as the code has it.  With [seen] the lines processed so far and
    [rest] the lines to come: the two flags are never both true, at the start,
    after [seen], which the loop over the whole document goes through, and
    once the document and the final flush are done.  The list branch leaves
    the paragraph closed and the list open, having written ['</p>'] first if
    a paragraph was open; the paragraph branch leaves the list closed, having
    written its closing tag first if it was open.  After the last line the
    flush writes the closing tag of the block that is still open and assigns
    neither flag: the flags end as the loop left them. *)
Theorem C8_at_most_one_block_open
  (seen rest : list string) (sink line : string) (c : Conv) :
  exclusive (start sink) /\
  exclusive (snd (for_lines seen (start sink))) /\
  for_lines (seen ++ rest) (start sink) =
    match for_lines seen (start sink) with
    | (Ok _, c') => for_lines rest c'
    | (Raise e, c') => (Raise e, c')
    end /\
  exclusive (snd (convert (seen ++ rest) (start sink))) /\
  (list_started (snd (listing line c)) = true /\
   paragraph_started (snd (listing line c)) = false /\
   exists item,
     htmlfile (snd (listing line c)) =
     htmlfile c ++ (if paragraph_started c then "</p>" ++ nl else "") ++ item) /\
  (list_started (snd (paragraph line c)) = false /\
   exists text,
     htmlfile (snd (paragraph line c)) =
     htmlfile c
       ++ (if list_started c then "</" ++ list_type c ++ ">" ++ nl else "")
       ++ text) /\
  convert (seen ++ rest) (start sink) =
    match for_lines (seen ++ rest) (start sink) with
    | (Ok _, c') =>
        (Ok tt, MkConv (list_started c') (paragraph_started c') (list_type c')
                       (htmlfile c' ++ flush_tags c'))
    | (Raise e, c') => (Raise e, c')
    end.
Proof.
  split; [reflexivity |].
  split; [now apply for_lines_exclusive |].
  split; [apply for_lines_app |].
  split; [now apply convert_exclusive |].
  split; [| split].
  - rewrite listing_eq.
    destruct (process_line _) as [text |]; unfold write, opened; cbn;
      repeat split; rewrite ?append_assoc; eexists; reflexivity.
  - rewrite paragraph_eq. unfold joined.
    destruct (process_line _) as [text |], (paragraph_started c),
      (isspace line); unfold write; cbn;
      (split; [reflexivity |]); rewrite ?append_assoc;
      first [ eexists; reflexivity | exists ""; now rewrite append_empty_r ].
  - unfold convert, bind.
    destruct (for_lines (seen ++ rest) (start sink)) as [[[] | e] c'];
      [apply flush_eq | reflexivity].
Qed.

(** C8, as the specification words it, fails in its last clause.  After
    the one-line documents ["- one\n"] and ["Hello\n"] and their flush, the
    closing tag is in the file but the flag of the list, or of the paragraph,
    is still true: the flush tests the flags and assigns neither. *)
Lemma C8_flush_keeps_the_flags :
  convert (readlines ("- one" ++ nl)) (start "")
  = (Ok tt, MkConv true false "ul"
              ("<ul>" ++ nl ++ "<li>one</li>" ++ nl ++ "</ul>" ++ nl)) /\
  list_started (snd (convert (readlines ("- one" ++ nl)) (start ""))) <> false /\
  convert (readlines ("Hello" ++ nl)) (start "")
  = (Ok tt, MkConv false true ""
              ("<p>" ++ nl ++ "Hello" ++ nl ++ "</p>" ++ nl)) /\
  paragraph_started (snd (convert (readlines ("Hello" ++ nl)) (start "")))
  <> false.
Proof. repeat split; try reflexivity; vm_compute; discriminate. Qed.

(** ** Whole documents *)

(** C6.  The document ["- one\n- two\n"] is read as two lines and converts
    to ["<ul>\n<li>one</li>\n<li>two</li>\n</ul>\n"]: the loop writes
    ['<ul>'] once, before the first item, and leaves the list open; the flush
    writes ['</ul>']. *)
Theorem C6_two_item_list :
  html_of ("- one" ++ nl ++ "- two" ++ nl)
  = (Ok tt, "<ul>" ++ nl ++ "<li>one</li>" ++ nl ++ "<li>two</li>" ++ nl
              ++ "</ul>" ++ nl) /\
  readlines ("- one" ++ nl ++ "- two" ++ nl) = ["- one" ++ nl; "- two" ++ nl] /\
  (forall sink,
     for_lines ["- one" ++ nl; "- two" ++ nl] (start sink)
     = (Ok tt, MkConv true false "ul"
                 (sink ++ "<ul>" ++ nl ++ "<li>one</li>" ++ nl
                       ++ "<li>two</li>" ++ nl))) /\
  flush_tags (MkConv true false "ul" "") = "</ul>" ++ nl.
Proof.
  repeat split; try (vm_compute; reflexivity).
  intros sink. cbn. text. reflexivity.
Qed.

(** ** The command line *)

(** C9.  When the first of the two arguments does not name a regular file,
    the script prints ["Missing "] and that path to the error stream and exits
    with status 1; no file is touched, the output file included. *)
Theorem C9_missing_input_file
  (markdown_file html_file : string) (more : list string) (w : World) :
  isfile (files w) markdown_file = false ->
  main (markdown_file :: html_file :: more) w =
  (MkWorld (files w)
           (stderr w ++ [Printed ("Missing " ++ markdown_file ++ nl)]),
   1%Z).
Proof.
  intros H. unfold main. rewrite H. cbn [negb]. unfold eprint.
  now rewrite append_assoc.
Qed.

Lemma C9_missing_input_file_witness :
  let w := MkWorld (fun _ => None) [] in
  isfile (files w) "README.md" = false /\
  main ["README.md"; "README.html"] w =
  (MkWorld (files w) (stderr w ++ [Printed ("Missing " ++ "README.md" ++ nl)]),
   1%Z).
Proof.
  intros w. split; [reflexivity |].
  apply (C9_missing_input_file "README.md" "README.html" [] w). reflexivity.
Defined.

(** ** Further examples of the specification *)

Example heading_alone :
  html_of ("## Title" ++ nl) = (Ok tt, "<h2>Title</h2>" ++ nl).
Proof. vm_compute. reflexivity. Qed.

Example two_lines_one_paragraph :
  html_of ("Hello" ++ nl ++ "World" ++ nl ++ nl)
  = (Ok tt, "<p>" ++ nl ++ "Hello" ++ nl ++ "<br/>" ++ nl ++ "World"
              ++ nl ++ "</p>" ++ nl).
Proof. vm_compute. reflexivity. Qed.

Example cool_cat : process_line "((Cool cat))" = Ok "ool at".
Proof. vm_compute. reflexivity. Qed.

Example bold_then_emphasis :
  process_line "x **bo__l__d** y" = Ok "x <b>bo<em>l</em>d</b> y".
Proof. vm_compute. reflexivity. Qed.

Example marker_switch_keeps_wrapper :
  html_of ("- a" ++ nl ++ "* b" ++ nl)
  = (Ok tt, "<ul>" ++ nl ++ "<li>a</li>" ++ nl ++ "<li>b</li>" ++ nl
              ++ "</ol>" ++ nl).
Proof. vm_compute. reflexivity. Qed.

(** * Further properties of the code *)

(** ** Text without delimiters *)

Lemma count_zero_split sep s :
  count_go sep 0 s = 0 -> split_go sep 0 s = [s].
Proof.
  induction s as [| c s IH]; [reflexivity |].
  cbn [count_go split_go].
  destruct (String.prefix sep (String c s)); [discriminate |].
  intros H. now rewrite IH.
Qed.

Lemma absent_count_zero sep s :
  contains s sep = false -> count_go sep 0 s = 0.
Proof.
  unfold contains.
  induction s as [| c s IH]; [reflexivity |].
  cbn [String.index count_go].
  destruct (String.prefix sep (String c s)); [discriminate |].
  destruct (String.index 0 sep s); [discriminate | auto].
Qed.

(** X1.  When the delimiter does not occur in the line, [bold_emphasis] returns
    the line as it is. *)
Theorem bold_emphasis_without_delimiter (line markdown : string) :
  markdown <> "" ->
  count line markdown = 0 ->
  bold_emphasis line markdown = Ok line.
Proof.
  intros Hne H0. rewrite bold_emphasis_ok by assumption.
  rewrite count_zero_split by exact H0.
  cbn. reflexivity.
Qed.

Lemma bold_emphasis_without_delimiter_witness :
  bold_emphasis "plain *text_" "**" = Ok "plain *text_".
Proof.
  apply (bold_emphasis_without_delimiter "plain *text_" "**");
    [discriminate | reflexivity].
Defined.

(** X2.  A line that holds neither ['**'] nor ['__'], not both ['[['] and
    [']]'], and not both ['(('] and ['))'], goes through [process_line]
    unchanged. *)
Theorem process_line_plain_text (line : string) :
  contains line "**" = false ->
  contains line "__" = false ->
  contains line "[[" && contains line "]]" = false ->
  contains line "((" && contains line "))" = false ->
  process_line line = Ok line.
Proof.
  intros Hb He Hh Hc. unfold process_line.
  rewrite bold_emphasis_ok, count_zero_split;
    [| now apply absent_count_zero | discriminate].
  cbn [res_bind mark_pairs length range2 Nat.ltb Nat.leb fold_left join
       String.concat].
  rewrite bold_emphasis_ok, count_zero_split;
    [| now apply absent_count_zero | discriminate].
  cbn [res_bind mark_pairs length range2 Nat.ltb Nat.leb fold_left join
       String.concat].
  unfold text_to_md5. rewrite Hh. unfold remove_c. now rewrite Hc.
Qed.

Lemma process_line_plain_text_witness :
  process_line "see [[ here, Cc ))" = Ok "see [[ here, Cc ))".
Proof.
  apply (process_line_plain_text "see [[ here, Cc ))"); reflexivity.
Defined.

(** ** Slices *)

Lemma length_append (a b : string) :
  String.length (a ++ b) = String.length a + String.length b.
Proof. induction a as [| x a IH]; simpl; [reflexivity | now rewrite IH]. Qed.

Lemma substring_none n s : String.substring n 0 s = "".
Proof.
  revert n; induction s as [| x s IH]; intros [| n]; try reflexivity.
  apply IH.
Qed.

Lemma substring_all m s :
  String.length s <= m -> String.substring 0 m s = s.
Proof.
  revert m; induction s as [| x s IH]; intros [| m] H; simpl in *;
    try reflexivity; try lia.
  rewrite IH; [reflexivity | lia].
Qed.

Lemma substring_skip a b m :
  String.substring (String.length a) m (a ++ b) = String.substring 0 m b.
Proof. induction a as [| x a IH]; [reflexivity | exact IH]. Qed.

Lemma substring_take a b :
  String.substring 0 (String.length a) (a ++ b) = a.
Proof.
  induction a as [| x a IH]; simpl.
  - destruct b; reflexivity.
  - now rewrite IH.
Qed.

Lemma clamp_nat len n : clamp len (Z.of_nat n) = Nat.min n len.
Proof.
  unfold clamp. destruct (Z.ltb_spec (Z.of_nat n) 0); [lia |].
  now rewrite Nat2Z.id.
Qed.

(** [(a ++ b ++ c)[len a : len a + len b] = b]. *)
Lemma slice_middle a b c :
  slice (a ++ b ++ c) (Z.of_nat (String.length a))
        (Z.of_nat (String.length a + String.length b)) = b.
Proof.
  unfold slice. rewrite !clamp_nat, !length_append.
  replace (Nat.min (String.length a) _) with (String.length a) by lia.
  replace (Nat.min (String.length a + String.length b) _ - String.length a)
    with (String.length b) by lia.
  rewrite substring_skip. apply substring_take.
Qed.

Lemma slice_to_app a b : slice_to (a ++ b) (Z.of_nat (String.length a)) = a.
Proof.
  unfold slice_to. exact (slice_middle "" a b).
Qed.

Lemma slice_from_app a b :
  slice_from (a ++ b) (Z.of_nat (String.length a)) = b.
Proof.
  unfold slice_from, slice. rewrite !clamp_nat, length_append.
  replace (Nat.min (String.length a) _) with (String.length a) by lia.
  rewrite Nat.min_id, substring_skip. apply substring_all. lia.
Qed.

(** [s[lo:hi]] is empty as soon as [hi <= lo], both within the text. *)
Lemma slice_reversed s lo hi :
  hi <= lo -> slice s (Z.of_nat lo) (Z.of_nat hi) = "".
Proof.
  intros H. unfold slice. rewrite !clamp_nat.
  replace (Nat.min hi _ - Nat.min lo _) with 0 by lia.
  apply substring_none.
Qed.

Lemma find_contains s sub n :
  find s sub = Z.of_nat n -> contains s sub = true.
Proof.
  unfold find, contains. destruct (String.index 0 sub s); [reflexivity | lia].
Qed.

Lemma replace_char_erases s old :
  all_chars (fun ch => negb (Ascii.eqb ch old)) (replace_char s old "") = true.
Proof.
  induction s as [| x s IH]; [reflexivity |].
  cbn [replace_char]. destruct (Ascii.eqb x old) eqn:E; [exact IH |].
  cbn [all_chars]. now rewrite E, IH.
Qed.

Lemma replace_char_keeps p s old :
  all_chars p s = true -> all_chars p (replace_char s old "") = true.
Proof.
  induction s as [| x s IH]; [reflexivity |].
  cbn [replace_char all_chars]. intros H. apply andb_prop in H as [Hx Hs].
  destruct (Ascii.eqb x old); [auto |].
  cbn [all_chars]. now rewrite Hx, IH.
Qed.

Lemma all_chars_and p q s :
  all_chars p s = true -> all_chars q s = true ->
  all_chars (fun ch => p ch && q ch) s = true.
Proof.
  induction s as [| x s IH]; [reflexivity |]. cbn [all_chars].
  intros H1 H2. apply andb_prop in H1 as [-> H1], H2 as [-> H2].
  now rewrite IH.
Qed.

Lemma all_chars_ext p q s :
  (forall ch, p ch = q ch) -> all_chars p s = all_chars q s.
Proof.
  intros H. induction s as [| x s IH]; [reflexivity |].
  cbn [all_chars]. now rewrite H, IH.
Qed.

Lemma erased_c s :
  all_chars not_c (replace_char (replace_char s "C" "") "c" "") = true.
Proof.
  rewrite (all_chars_ext not_c
             (fun ch => negb (Ascii.eqb ch "C") && negb (Ascii.eqb ch "c"))).
  - apply all_chars_and.
    + apply replace_char_keeps, replace_char_erases.
    + apply replace_char_erases.
  - intros ch. unfold not_c. apply negb_orb.
Qed.

Section Spans.

Variables pre mid post : string.

Lemma span_inner text opening closing :
  text = pre ++ opening ++ mid ++ closing ++ post ->
  String.length opening = 2 ->
  slice text (Z.of_nat (String.length pre) + 2)
             (Z.of_nat (String.length pre + 2 + String.length mid)) = mid.
Proof.
  intros -> Ho.
  replace (Z.of_nat (String.length pre) + 2)%Z
    with (Z.of_nat (String.length (pre ++ opening))) by
    (rewrite length_append; lia).
  replace (String.length pre + 2 + String.length mid)
    with (String.length (pre ++ opening) + String.length mid) by
    (rewrite length_append; lia).
  rewrite <- (append_assoc pre opening). apply slice_middle.
Qed.

Lemma span_after text opening closing :
  text = pre ++ opening ++ mid ++ closing ++ post ->
  String.length opening = 2 -> String.length closing = 2 ->
  slice_from text (Z.of_nat (String.length pre + 2 + String.length mid) + 2)
  = post.
Proof.
  intros -> Ho Hc.
  replace (Z.of_nat (String.length pre + 2 + String.length mid) + 2)%Z
    with (Z.of_nat (String.length (pre ++ opening ++ mid ++ closing))) by
    (rewrite !length_append; lia).
  replace (pre ++ opening ++ mid ++ closing ++ post)
    with ((pre ++ opening ++ mid ++ closing) ++ post) by
    (now rewrite !append_assoc).
  apply slice_from_app.
Qed.

Lemma span_before text rest :
  text = pre ++ rest -> slice_to text (Z.of_nat (String.length pre)) = pre.
Proof. intros ->. apply slice_to_app. Qed.

(** X3.  When the first ['[['] stands right after [pre] and the first [']]']
    right after [mid], [text_to_md5] puts the digest of [mid], 32 characters,
    in place of the span with its delimiters; [post] is kept as it is,
    whatever it holds. *)
Theorem text_to_md5_first_span (text : string) :
  text = pre ++ "[[" ++ mid ++ "]]" ++ post ->
  find text "[[" = Z.of_nat (String.length pre) ->
  find text "]]" = Z.of_nat (String.length pre + 2 + String.length mid) ->
  text_to_md5 text = pre ++ MD5.hexdigest (encode mid) ++ post /\
  String.length (text_to_md5 text)
    = String.length pre + 32 + String.length post.
Proof.
  intros Ht Ho Hc.
  assert (E : text_to_md5 text = pre ++ MD5.hexdigest (encode mid) ++ post).
  { unfold text_to_md5.
    rewrite (find_contains _ _ _ Ho), (find_contains _ _ _ Hc), Ho, Hc.
    cbn [andb].
    rewrite (span_before _ _ Ht), (span_inner _ _ _ Ht eq_refl),
      (span_after _ _ _ Ht eq_refl eq_refl).
    reflexivity. }
  split; [exact E |].
  rewrite E, !length_append, hexdigest_length. lia.
Qed.

(** X4.  When the first ['(('] stands right after [pre] and the first ['))']
    right after [mid], [remove_c] puts [mid] without its ['C'] and ['c'] in
    place of the span with its delimiters, and what it puts holds neither
    letter; [pre] and [post] keep theirs. *)
Theorem remove_c_first_span (text : string) :
  text = pre ++ "((" ++ mid ++ "))" ++ post ->
  find text "((" = Z.of_nat (String.length pre) ->
  find text "))" = Z.of_nat (String.length pre + 2 + String.length mid) ->
  remove_c text = pre ++ replace_char (replace_char mid "C" "") "c" "" ++ post /\
  all_chars not_c (replace_char (replace_char mid "C" "") "c" "") = true.
Proof.
  intros Ht Ho Hc. split; [| apply erased_c].
  unfold remove_c.
  rewrite (find_contains _ _ _ Ho), (find_contains _ _ _ Hc), Ho, Hc.
  cbn [andb].
  rewrite (span_before _ _ Ht), (span_inner _ _ _ Ht eq_refl),
    (span_after _ _ _ Ht eq_refl eq_refl).
  reflexivity.
Qed.

(** With the closing delimiter first, [text = pre ++ closing ++ mid ++
    opening ++ post], the span between the two indices is empty. *)
Lemma reversed_inner text opening closing :
  text = pre ++ closing ++ mid ++ opening ++ post ->
  String.length closing = 2 ->
  slice text (Z.of_nat (String.length pre + 2 + String.length mid) + 2)
             (Z.of_nat (String.length pre)) = "".
Proof.
  intros _ _.
  replace (Z.of_nat (String.length pre + 2 + String.length mid) + 2)%Z
    with (Z.of_nat (String.length pre + 2 + String.length mid + 2)) by lia.
  apply slice_reversed. lia.
Qed.

Lemma reversed_before text opening closing :
  text = pre ++ closing ++ mid ++ opening ++ post ->
  String.length closing = 2 ->
  slice_to text (Z.of_nat (String.length pre + 2 + String.length mid))
  = pre ++ closing ++ mid.
Proof.
  intros -> Hc.
  replace (String.length pre + 2 + String.length mid)
    with (String.length (pre ++ closing ++ mid)) by
    (rewrite !length_append; lia).
  replace (pre ++ closing ++ mid ++ opening ++ post)
    with ((pre ++ closing ++ mid) ++ opening ++ post) by
    (now rewrite !append_assoc).
  apply slice_to_app.
Qed.

Lemma reversed_after text opening closing :
  text = pre ++ closing ++ mid ++ opening ++ post ->
  String.length closing = 2 ->
  slice_from text (Z.of_nat (String.length pre) + 2) = mid ++ opening ++ post.
Proof.
  intros -> Hc.
  replace (Z.of_nat (String.length pre) + 2)%Z
    with (Z.of_nat (String.length (pre ++ closing))) by
    (rewrite length_append; lia).
  rewrite <- (append_assoc pre closing). apply slice_from_app.
Qed.

(** X5.  When the first [']]'] comes before the first ['[['], the span between
    the two indices is empty: [text_to_md5] inserts the digest of the empty
    text, keeps both delimiters, and has [mid], the text between them, on
    both sides of the digest. *)
Theorem text_to_md5_closing_first (text : string) :
  text = pre ++ "]]" ++ mid ++ "[[" ++ post ->
  find text "]]" = Z.of_nat (String.length pre) ->
  find text "[[" = Z.of_nat (String.length pre + 2 + String.length mid) ->
  text_to_md5 text
  = (pre ++ "]]" ++ mid) ++ "d41d8cd98f00b204e9800998ecf8427e"
      ++ (mid ++ "[[" ++ post).
Proof.
  intros Ht Hc Ho. unfold text_to_md5.
  rewrite (find_contains _ _ _ Ho), (find_contains _ _ _ Hc), Ho, Hc.
  cbn [andb].
  rewrite (reversed_before _ _ _ Ht eq_refl), (reversed_inner _ _ _ Ht eq_refl),
    (reversed_after _ _ _ Ht eq_refl).
  reflexivity.
Qed.

(** X6.  When the first ['))'] comes before the first ['(('], [remove_c] removes
    no letter: it keeps both delimiters and repeats [mid], the text between
    them. *)
Theorem remove_c_closing_first (text : string) :
  text = pre ++ "))" ++ mid ++ "((" ++ post ->
  find text "))" = Z.of_nat (String.length pre) ->
  find text "((" = Z.of_nat (String.length pre + 2 + String.length mid) ->
  remove_c text = (pre ++ "))" ++ mid) ++ (mid ++ "((" ++ post).
Proof.
  intros Ht Hc Ho. unfold remove_c.
  rewrite (find_contains _ _ _ Ho), (find_contains _ _ _ Hc), Ho, Hc.
  cbn [andb].
  rewrite (reversed_before _ _ _ Ht eq_refl), (reversed_inner _ _ _ Ht eq_refl),
    (reversed_after _ _ _ Ht eq_refl).
  reflexivity.
Qed.

End Spans.

Lemma remove_c_closing_first_witness :
  remove_c "x))yC((z" = ("x" ++ "))" ++ "yC") ++ ("yC" ++ "((" ++ "z").
Proof.
  apply (remove_c_closing_first "x" "yC" "z" "x))yC((z"); reflexivity.
Defined.

Lemma text_to_md5_closing_first_witness :
  text_to_md5 "x]]y[[z"
    = ("x" ++ "]]" ++ "y") ++ "d41d8cd98f00b204e9800998ecf8427e"
        ++ ("y" ++ "[[" ++ "z").
Proof.
  apply (text_to_md5_closing_first "x" "y" "z" "x]]y[[z"); reflexivity.
Defined.

Lemma remove_c_first_span_witness :
  remove_c "Curl ((Cool cat)) cc"
    = "Curl " ++ replace_char (replace_char "Cool cat" "C" "") "c" "" ++ " cc" /\
  all_chars not_c (replace_char (replace_char "Cool cat" "C" "") "c" "") = true.
Proof.
  apply (remove_c_first_span "Curl " "Cool cat" " cc" "Curl ((Cool cat)) cc");
    reflexivity.
Defined.

Lemma text_to_md5_first_span_witness :
  text_to_md5 "a[[foo]]b[[c]]"
    = "a" ++ MD5.hexdigest (encode "foo") ++ "b[[c]]" /\
  String.length (text_to_md5 "a[[foo]]b[[c]]")
    = String.length "a" + 32 + String.length "b[[c]]".
Proof.
  apply (text_to_md5_first_span "a" "foo" "b[[c]]" "a[[foo]]b[[c]]");
    reflexivity.
Defined.

(** ** When the loop raises *)

Lemma get_none_iff s n : String.get n s = None <-> String.length s <= n.
Proof.
  revert n; induction s as [| x s IH]; intros n; simpl.
  - split; [lia | reflexivity].
  - destruct n as [| n]; [split; [discriminate | lia] |].
    rewrite IH. lia.
Qed.

Lemma hash_run_le s : hash_run s <= String.length s.
Proof.
  induction s as [| x s IH]; [reflexivity |].
  cbn [hash_run]. destruct (Ascii.eqb_spec x "#") as [-> | Hne].
  - cbn. lia.
  - destruct x as [[] [] [] [] [] [] [] []]; cbn; try lia.
Qed.

(** On a line that starts with ['#'], the branch returns when the trimmed
    line goes on after its run of ['#'], and raises otherwise. *)
Lemma hash_line_result line c :
  startswith line "#" = true ->
  fst (body line c) =
  if (hash_run (strip line) <? String.length (strip line))%nat then Ok tt
  else Raise IndexError.
Proof.
  intros Hh. unfold body. rewrite Hh, heading_eq. unfold getitem.
  destruct (String.get _ _) as [ch |] eqn:Hg.
  - assert (Hlt : ~ String.length (strip line) <= hash_run (strip line)).
    { intros H. apply get_none_iff in H. congruence. }
    apply Nat.nle_gt, Nat.ltb_lt in Hlt. rewrite Hlt.
    destruct (Ascii.eqb ch " "); [| reflexivity].
    now destruct (process_line_ok (slice_from (strip line)
                    (Z.of_nat (hash_run (strip line)) + 1))) as [t ->].
  - apply get_none_iff, Nat.ltb_ge in Hg. now rewrite Hg.
Qed.

(** X11.  The body of the loop raises on exactly the lines that start with ['#']
    and are nothing but ['#'] once trimmed; the exception is [IndexError].  On
    every other line it returns. *)
Theorem body_raises_iff (line : string) (c : Conv) (e : exn) :
  fst (body line c) = Raise e <->
  e = IndexError /\ startswith line "#" = true /\
  hash_run (strip line) = String.length (strip line).
Proof.
  destruct (startswith line "#") eqn:Hh.
  2: { rewrite body_ok_unless_hash by exact Hh.
       split; [discriminate | intros (_ & H & _); discriminate]. }
  rewrite hash_line_result by exact Hh.
  pose proof (hash_run_le (strip line)) as Hle.
  destruct (Nat.ltb_spec (hash_run (strip line)) (String.length (strip line)))
    as [Hlt | Hge].
  - split; [discriminate | intros (_ & _ & H); lia].
  - split; [intros [= <-]; repeat split; lia | intros (-> & _); reflexivity].
Qed.

Lemma safe_line_ok line c : safe_line line = true -> fst (body line c) = Ok tt.
Proof.
  unfold safe_line. intros Hs.
  destruct (startswith line "#") eqn:Hh.
  - rewrite hash_line_result by exact Hh. cbn [negb orb] in Hs.
    now rewrite Hs.
  - now apply body_ok_unless_hash.
Qed.

Lemma unsafe_line_raises line c :
  safe_line line = false -> fst (body line c) = Raise IndexError.
Proof.
  unfold safe_line. intros Hs. apply orb_false_elim in Hs as [Hh Hr].
  apply negb_false_iff in Hh. rewrite hash_line_result by exact Hh.
  now rewrite Hr.
Qed.

Lemma for_lines_ok_iff mdfile c :
  fst (for_lines mdfile c) = Ok tt <-> forallb safe_line mdfile = true.
Proof.
  revert c; induction mdfile as [| line rest IH]; intros c.
  - split; reflexivity.
  - cbn [for_lines forallb]. unfold bind.
    destruct (safe_line line) eqn:Hs.
    + pose proof (safe_line_ok line c Hs) as Hb.
      destruct (body line c) as [[[] | e] c']; [| discriminate].
      cbn [andb]. apply IH.
    + pose proof (unsafe_line_raises line c Hs) as Hb.
      destruct (body line c) as [[[] | e] c']; [discriminate |].
      cbn. split; discriminate.
Qed.

Lemma convert_result mdfile c :
  fst (convert mdfile c) = fst (for_lines mdfile c).
Proof.
  unfold convert, bind.
  destruct (for_lines mdfile c) as [[[] | e] c']; [| reflexivity].
  now rewrite flush_eq.
Qed.

(** X12.  The conversion of a document ends without an exception exactly when
    every line is safe in that sense, whatever the state it starts from. *)
Theorem convert_ok_iff (mdfile : list string) (c : Conv) :
  fst (convert mdfile c) = Ok tt <-> forallb safe_line mdfile = true.
Proof.
  rewrite convert_result. apply for_lines_ok_iff.
Qed.

(** ** The output file only grows *)

Lemma write_resink before text c :
  write text (resink before c) = (Ok tt, resink before (snd (write text c))).
Proof. unfold write, resink; cbn. now rewrite append_assoc. Qed.

Lemma closed_resink before c : closed (resink before c) = resink before (closed c).
Proof. unfold closed, resink, closing_tags; cbn. now rewrite append_assoc. Qed.

Lemma opened_resink before line c :
  opened line (resink before c) = resink before (opened line c).
Proof. unfold opened, resink, kind_after; cbn. now rewrite append_assoc. Qed.

Lemma joined_resink before line c :
  joined line (resink before c) = resink before (joined line c).
Proof.
  unfold joined, resink; cbn.
  destruct (paragraph_started c), (isspace line); cbn;
    now rewrite append_assoc.
Qed.

Lemma body_resink before line c :
  body line (resink before c) =
  (fst (body line c), resink before (snd (body line c))).
Proof.
  unfold body.
  destruct (startswith line "#").
  { rewrite !heading_eq, closed_resink.
    destruct (getitem _ _) as [ch |]; [| reflexivity].
    destruct (Ascii.eqb ch " "); [| reflexivity].
    destruct (process_line _); [apply write_resink | reflexivity]. }
  destruct (startswith line "- " || startswith line "* ").
  { rewrite !listing_eq, opened_resink.
    destruct (process_line _); [apply write_resink | reflexivity]. }
  destruct (paragraph_eligible line); [| reflexivity].
  rewrite !paragraph_eq, joined_resink.
  destruct (process_line _); [apply write_resink | reflexivity].
Qed.

Lemma for_lines_resink before mdfile c :
  for_lines mdfile (resink before c) =
  (fst (for_lines mdfile c), resink before (snd (for_lines mdfile c))).
Proof.
  revert c; induction mdfile as [| line rest IH]; intros c; [reflexivity |].
  cbn [for_lines]. unfold bind. rewrite body_resink.
  destruct (body line c) as [[[] | e] c']; cbn [fst snd]; [apply IH | reflexivity].
Qed.

Lemma flush_resink before c :
  flush (resink before c) = (fst (flush c), resink before (snd (flush c))).
Proof.
  rewrite !flush_eq. unfold resink, flush_tags; cbn. now rewrite append_assoc.
Qed.

Lemma convert_resink before mdfile c :
  convert mdfile (resink before c) =
  (fst (convert mdfile c), resink before (snd (convert mdfile c))).
Proof.
  unfold convert, bind. rewrite for_lines_resink.
  destruct (for_lines mdfile c) as [[[] | e] c']; cbn [fst snd];
    [apply flush_resink | reflexivity].
Qed.

Lemma start_resink sink : start sink = resink sink (start "").
Proof. unfold resink, start; cbn. now rewrite append_empty_r. Qed.

(** X13.  What the conversion writes does not depend on what the file held: over
    a file that holds [sink], the result, the flags and the list kind are
    those of a conversion over an empty file, and the file holds [sink]
    followed by what that conversion wrote. *)
Theorem convert_appends (mdfile : list string) (sink : string) :
  convert mdfile (start sink) =
  (fst (convert mdfile (start "")),
   resink sink (snd (convert mdfile (start "")))).
Proof.
  rewrite start_resink at 1. apply convert_resink.
Qed.

(** ** The command line, when the input exists *)






(** X16.  With fewer than two arguments the script prints the usage line to the
    error stream and exits with status 1, without looking at any file. *)
Theorem main_usage (args : list string) (w : World) :
  length args < 2 ->
  main args w = (MkWorld (files w) (stderr w ++ [Printed (usage ++ nl)]), 1%Z).
Proof.
  intros H. destruct args as [| a [| b args]]; cbn in H; try lia; reflexivity.
Qed.

Lemma main_usage_witness :
  let w := only_file "README.md" ("# Title" ++ nl) in
  main ["README.md"] w
  = (MkWorld (files w) (stderr w ++ [Printed (usage ++ nl)]), 1%Z).
Proof.
  intros w. apply (main_usage ["README.md"] w). cbn. lia.
Defined.

(** ** Blank lines *)

Lemma lstrip_spaces s : all_chars isspace_char s = true -> lstrip s = "".
Proof.
  induction s as [| x s IH]; [reflexivity |]. cbn [all_chars lstrip].
  intros H. apply andb_prop in H as [-> H]. auto.
Qed.

Lemma isspace_all s : isspace s = true -> all_chars isspace_char s = true.
Proof. destruct s; [discriminate | auto]. Qed.

Lemma isspace_eligible s : isspace s = true -> paragraph_eligible s = true.
Proof.
  intros H. unfold paragraph_eligible. rewrite H.
  now rewrite orb_true_r.
Qed.

(** X17.  A line of whitespace closes what is open, as the final flush would:
    the closing tag of the list, a newline and ['</p>'] for the paragraph;
    both flags are false afterwards and nothing else is written. *)
Theorem blank_line_closes_blocks (line : string) (c : Conv) :
  isspace line = true ->
  body line c =
  (Ok tt, MkConv false false (list_type c) (htmlfile c ++ flush_tags c)).
Proof.
  intros Hs.
  rewrite eligible_is_paragraph by now apply isspace_eligible.
  rewrite paragraph_eq. unfold strip.
  rewrite lstrip_spaces by now apply isspace_all.
  unfold joined, flush_tags. rewrite Hs.
  destruct c as [ls [] kind sink]; unfold write; cbn;
    now rewrite ?append_assoc, ?append_empty_r.
Qed.

Lemma blank_line_closes_blocks_witness :
  let c := MkConv false true "" ("<p>" ++ nl ++ "Hello") in
  body nl c =
  (Ok tt, MkConv false false (list_type c) (htmlfile c ++ flush_tags c)).
Proof.
  intros c. apply (blank_line_closes_blocks nl c). reflexivity.
Defined.

(** ** Headings *)

Lemma rstrip_spaces s : all_chars isspace_char s = true -> rstrip s = "".
Proof.
  induction s as [| x s IH]; [reflexivity |]. cbn [all_chars rstrip].
  intros H. apply andb_prop in H as [Hx H]. now rewrite IH, Hx.
Qed.

Lemma rstrip_app_spaces t ws :
  all_chars isspace_char ws = true -> rstrip (t ++ ws) = rstrip t.
Proof.
  intros H. induction t as [| x t IH]; cbn [append rstrip].
  - now apply rstrip_spaces.
  - now rewrite IH.
Qed.

Lemma rstrip_app_kept a b :
  rstrip b <> "" -> rstrip (a ++ b) = a ++ rstrip b.
Proof.
  intros H. induction a as [| x a IH]; [reflexivity |].
  cbn [append rstrip]. rewrite IH.
  destruct (a ++ rstrip b) eqn:E; [| reflexivity].
  destruct a; [cbn in E; congruence | discriminate].
Qed.

Lemma hashes_succ n : hashes (S n) = String "#" (hashes n).
Proof. reflexivity. Qed.

Lemma length_hashes n : String.length (hashes n) = n.
Proof.
  induction n as [| n IH]; [reflexivity |].
  rewrite hashes_succ. cbn [String.length]. now rewrite IH.
Qed.

Lemma hash_run_stops n rest :
  hash_run (hashes n ++ String " " rest) = n.
Proof.
  induction n as [| n IH]; [reflexivity |].
  rewrite hashes_succ. cbn [append hash_run]. now rewrite IH.
Qed.

Lemma get_after a x rest :
  String.get (String.length a) (a ++ String x rest) = Some x.
Proof. induction a as [| y a IH]; [reflexivity | exact IH]. Qed.

Lemma hash_line_is_heading rest c :
  body (String "#" rest) c = heading (String "#" rest) c.
Proof.
  unfold body. now rewrite startswith_cons, startswith_empty.
Qed.

Lemma strip_heading n title ws :
  rstrip title = title -> title <> "" ->
  all_chars isspace_char ws = true ->
  strip (hashes (S n) ++ " " ++ title ++ ws) = (hashes (S n) ++ " ") ++ title.
Proof.
  intros Hr Hne Hws. unfold strip.
  rewrite hashes_succ. cbn [append lstrip].
  change (isspace_char "#") with false. cbn match.
  replace (String "#" (hashes n ++ String " " (title ++ ws)))
    with ((String "#" (hashes n ++ " ")) ++ (title ++ ws)) by
    (cbn [append]; now rewrite append_assoc).
  rewrite rstrip_app_kept; rewrite rstrip_app_spaces by exact Hws;
    rewrite Hr; [reflexivity | exact Hne].
Qed.

(** X18.  A line of [S n] characters ['#'], a space, a title that does not end
    in whitespace, and any trailing whitespace, is a heading whose level is
    the number of ['#'], with no upper bound; the title is transformed but not
    trimmed on the left; open blocks are closed first. *)
Theorem heading_level_is_hash_count
  (n : nat) (title ws : string) (c : Conv) :
  rstrip title = title -> title <> "" ->
  all_chars isspace_char ws = true ->
  exists head_text,
    process_line title = Ok head_text /\
    body (hashes (S n) ++ " " ++ title ++ ws) c =
    (Ok tt,
     MkConv false false (list_type c)
       (htmlfile c ++ closing_tags c
          ++ "<h" ++ str_nat (S n) ++ ">" ++ head_text
          ++ "</h" ++ str_nat (S n) ++ ">" ++ nl)).
Proof.
  intros Hr Hne Hws.
  destruct (process_line_ok title) as [t Ht]. exists t. split; [exact Ht |].
  pose proof (strip_heading n title ws Hr Hne Hws) as Hstrip.
  assert (Hrun : hash_run ((hashes (S n) ++ " ") ++ title) = S n).
  { rewrite append_assoc. apply hash_run_stops. }
  assert (Hget : getitem ((hashes (S n) ++ " ") ++ title) (S n) = Ok " "%char).
  { unfold getitem. rewrite append_assoc.
    rewrite <- (length_hashes (S n)) at 1.
    change (" " ++ title) with (String " " title). now rewrite get_after. }
  assert (Hrest : slice_from ((hashes (S n) ++ " ") ++ title)
                    (Z.of_nat (S n) + 1) = title).
  { replace (Z.of_nat (S n) + 1)%Z
      with (Z.of_nat (String.length (hashes (S n) ++ " "))) by
      (rewrite length_append, length_hashes; cbn [String.length]; lia).
    apply slice_from_app. }
  change (hashes (S n) ++ " " ++ title ++ ws)
    with (String "#" (hashes n ++ " " ++ title ++ ws)) at 1.
  rewrite hash_line_is_heading, heading_eq.
  change (String "#" (hashes n ++ " " ++ title ++ ws))
    with (hashes (S n) ++ " " ++ title ++ ws).
  rewrite Hstrip, Hrun, Hget, Hrest, Ht.
  unfold write, closed; cbn. now rewrite !append_assoc.
Qed.

Lemma heading_level_is_hash_count_witness :
  let c := start "" in
  exists head_text,
    process_line " Deep" = Ok head_text /\
    body (hashes 7 ++ " " ++ " Deep" ++ nl) c =
    (Ok tt,
     MkConv false false (list_type c)
       (htmlfile c ++ closing_tags c
          ++ "<h" ++ str_nat 7 ++ ">" ++ head_text
          ++ "</h" ++ str_nat 7 ++ ">" ++ nl)).
Proof.
  intros c.
  apply (heading_level_is_hash_count 6 " Deep" nl c);
    [reflexivity | discriminate | reflexivity].
Defined.

(** ** Runs of lines of one kind *)

Lemma join_cons x l : join (x :: l) = x ++ join l.
Proof.
  unfold join. destruct l; cbn [String.concat];
    [now rewrite append_empty_r | reflexivity].
Qed.

Lemma marker_is_no_hash line :
  startswith line "- " || startswith line "* " = true ->
  startswith line "#" = false.
Proof.
  intros H. apply orb_prop in H as [H | H];
    apply startswith_app in H as [rest ->]; reflexivity.
Qed.

Lemma item_line line c :
  startswith line "- " || startswith line "* " = true ->
  exists list_text,
    process_line (slice_from (strip line) 2) = Ok list_text /\
    body line c =
    (Ok tt,
     MkConv true false (kind_after line c)
       (htmlfile (opened line c) ++ "<li>" ++ list_text ++ "</li>" ++ nl)).
Proof.
  intros Hm.
  destruct (process_line_ok (slice_from (strip line) 2)) as [t Ht].
  exists t. split; [exact Ht |].
  unfold body. rewrite (marker_is_no_hash line Hm), Hm, listing_eq, Ht.
  reflexivity.
Qed.

(** Items after the first: the list is open, each line adds its item. *)
Lemma items_follow mdfile c :
  forallb (fun l => startswith l "- " || startswith l "* ") mdfile = true ->
  list_started c = true -> paragraph_started c = false ->
  exists items c',
    Forall2 item_of mdfile items /\
    for_lines mdfile c = (Ok tt, c') /\
    list_started c' = true /\ paragraph_started c' = false /\
    htmlfile c' = htmlfile c ++ join items.
Proof.
  revert c; induction mdfile as [| line rest IH]; intros c Hall Hl Hp.
  - exists [], c. repeat split; auto. cbn. now rewrite append_empty_r.
  - cbn [forallb] in Hall. apply andb_prop in Hall as [Hm Hall].
    destruct (item_line line c Hm) as (t & Ht & Hb).
    unfold opened in Hb. rewrite Hl, Hp in Hb. cbn [htmlfile append] in Hb.
    rewrite append_empty_r in Hb.
    match type of Hb with
    | _ = (_, ?c1) =>
        destruct (IH c1 Hall eq_refl eq_refl)
          as (items & c' & Hi & Hf & Hl' & Hp' & Hh)
    end.
    exists (("<li>" ++ t ++ "</li>" ++ nl) :: items), c'.
    repeat split; auto.
    + constructor; [now exists t | exact Hi].
    + cbn [for_lines]. unfold bind. rewrite Hb. exact Hf.
    + rewrite Hh, join_cons. cbn [htmlfile]. text. reflexivity.
Qed.

(** X19.  A run of list items, of either marker, met in any state: every line
    gives its item, and the opening tag is written once, before the first
    item and only if no list was open, after the ['</p>'] of an open
    paragraph.  The tag names [list_type] as the first line leaves it
    ([kind_after]): ['ul'] or ['ol'] when the trimmed first line still starts
    with its marker, and otherwise, the line being the marker alone, the kind
    that was remembered before it, which is empty at the start of a document.
    The list is open afterwards. *)
Theorem list_run_opens_one_wrapper
  (line : string) (rest : list string) (c : Conv) :
  forallb (fun l => startswith l "- " || startswith l "* ") (line :: rest)
    = true ->
  exists items c',
    Forall2 item_of (line :: rest) items /\
    for_lines (line :: rest) c = (Ok tt, c') /\
    list_started c' = true /\ paragraph_started c' = false /\
    htmlfile c' =
    htmlfile c
      ++ (if paragraph_started c then "</p>" ++ nl else "")
      ++ (if list_started c then "" else "<" ++ kind_after line c ++ ">" ++ nl)
      ++ join items.
Proof.
  intros Hall. cbn [forallb] in Hall. apply andb_prop in Hall as [Hm Hall].
  destruct (item_line line c Hm) as (t & Ht & Hb).
  destruct (items_follow rest
              (MkConv true false (kind_after line c)
                 (htmlfile (opened line c) ++ "<li>" ++ t ++ "</li>" ++ nl))
              Hall eq_refl eq_refl)
    as (items & c' & Hi & Hf & Hl' & Hp' & Hh).
  exists (("<li>" ++ t ++ "</li>" ++ nl) :: items), c'.
  repeat split; auto.
  - constructor; [now exists t | exact Hi].
  - cbn [for_lines]. unfold bind. rewrite Hb. exact Hf.
  - rewrite Hh, join_cons. unfold opened; cbn [htmlfile]. text.
    reflexivity.
Qed.

Lemma list_run_opens_one_wrapper_witness :
  let c := start "" in
  exists items c',
    Forall2 item_of ["- a" ++ nl; "* b" ++ nl] items /\
    for_lines ["- a" ++ nl; "* b" ++ nl] c = (Ok tt, c') /\
    list_started c' = true /\ paragraph_started c' = false /\
    htmlfile c' =
    htmlfile c
      ++ (if paragraph_started c then "</p>" ++ nl else "")
      ++ (if list_started c then ""
          else "<" ++ kind_after ("- a" ++ nl) c ++ ">" ++ nl)
      ++ join items.
Proof.
  intros c.
  apply (list_run_opens_one_wrapper ("- a" ++ nl) ["* b" ++ nl] c).
  reflexivity.
Defined.

(** Lines after the first of a paragraph: each adds a break and its text. *)
Lemma texts_follow mdfile c :
  forallb (fun l => paragraph_eligible l && negb (isspace l)) mdfile = true ->
  list_started c = false -> paragraph_started c = true ->
  exists texts,
    Forall2 text_of mdfile texts /\
    for_lines mdfile c =
    (Ok tt,
     MkConv false true (list_type c)
       (htmlfile c ++ join (map (fun t => nl ++ "<br/>" ++ nl ++ t) texts))).
Proof.
  revert c; induction mdfile as [| line rest IH]; intros c Hall Hl Hp.
  - exists []. split; [constructor |].
    destruct c as [ls ps kind sink]; cbn in *; subst.
    now rewrite append_empty_r.
  - cbn [forallb] in Hall. apply andb_prop in Hall as [Hm Hall].
    apply andb_prop in Hm as [He Hs]. apply negb_true_iff in Hs.
    destruct (process_line_ok (strip line)) as [t Ht].
    assert (Hb : body line c =
                 (Ok tt, MkConv false true (list_type c)
                           (htmlfile c ++ nl ++ "<br/>" ++ nl ++ t))).
    { rewrite eligible_is_paragraph, paragraph_eq, Ht by exact He.
      unfold joined. rewrite Hp, Hs, Hl. unfold write; cbn.
      now rewrite !append_assoc. }
    destruct (IH (MkConv false true (list_type c)
                    (htmlfile c ++ nl ++ "<br/>" ++ nl ++ t))
                 Hall eq_refl eq_refl) as (texts & Hi & Hf).
    exists (t :: texts). split; [constructor; assumption |].
    cbn [for_lines]. unfold bind. rewrite Hb, Hf.
    cbn [map list_type htmlfile]. rewrite join_cons.
    now rewrite !append_assoc.
Qed.

Lemma concat_breaks sep t texts :
  String.concat sep (t :: texts) = t ++ join (map (fun t => sep ++ t) texts).
Proof.
  revert t; induction texts as [| t' texts IH]; intros t.
  - cbn. now rewrite append_empty_r.
  - change (String.concat sep (t :: t' :: texts))
      with (t ++ sep ++ String.concat sep (t' :: texts)).
    rewrite IH. cbn [map]. now rewrite join_cons, !append_assoc.
Qed.

(** X20.  A run of paragraph lines that are not blank, met while no paragraph is
    open: one ['<p>'] is written, after the closing tag of an open list, then
    the texts of the lines with a newline, ['<br/>'] and a newline between
    two of them; the paragraph is open afterwards. *)
Theorem paragraph_run_is_one_paragraph
  (line : string) (rest : list string) (c : Conv) :
  forallb (fun l => paragraph_eligible l && negb (isspace l)) (line :: rest)
    = true ->
  paragraph_started c = false ->
  exists texts,
    Forall2 text_of (line :: rest) texts /\
    for_lines (line :: rest) c =
    (Ok tt,
     MkConv false true (list_type c)
       (htmlfile c
          ++ (if list_started c then "</" ++ list_type c ++ ">" ++ nl else "")
          ++ "<p>" ++ nl
          ++ String.concat (nl ++ "<br/>" ++ nl) texts)).
Proof.
  intros Hall Hp. cbn [forallb] in Hall. apply andb_prop in Hall as [Hm Hall].
  apply andb_prop in Hm as [He Hs]. apply negb_true_iff in Hs.
  destruct (process_line_ok (strip line)) as [t Ht].
  assert (Hb : body line c =
               (Ok tt, MkConv false true (list_type c)
                  (htmlfile c
                     ++ (if list_started c
                         then "</" ++ list_type c ++ ">" ++ nl else "")
                     ++ "<p>" ++ nl ++ t))).
  { rewrite eligible_is_paragraph, paragraph_eq, Ht by exact He.
    unfold joined. rewrite Hp, Hs. unfold write; cbn.
    now rewrite !append_assoc. }
  match type of Hb with
  | _ = (_, ?c1) =>
      destruct (texts_follow rest c1 Hall eq_refl eq_refl) as (texts & Hi & Hf)
  end.
  exists (t :: texts). split; [constructor; assumption |].
  cbn [for_lines]. unfold bind. rewrite Hb, Hf.
  cbn [list_type htmlfile].
  rewrite concat_breaks, !append_assoc. reflexivity.
Qed.

Lemma paragraph_run_is_one_paragraph_witness :
  let c := start "" in
  exists texts,
    Forall2 text_of ["Hello" ++ nl; "World" ++ nl] texts /\
    for_lines ["Hello" ++ nl; "World" ++ nl] c =
    (Ok tt,
     MkConv false true (list_type c)
       (htmlfile c
          ++ (if list_started c then "</" ++ list_type c ++ ">" ++ nl else "")
          ++ "<p>" ++ nl
          ++ String.concat (nl ++ "<br/>" ++ nl) texts)).
Proof.
  intros c.
  apply (paragraph_run_is_one_paragraph ("Hello" ++ nl) ["World" ++ nl] c);
    reflexivity.
Defined.

(** ** No delimiter is left *)

Section MarkAlt.

Variable tag : string.

Lemma mark_alt_length odd parts :
  length (mark_alt tag odd parts) = length parts.
Proof.
  revert odd; induction parts as [| p ps IH]; intros odd; cbn;
    [reflexivity | now rewrite IH].
Qed.

Lemma mark_alt_nth parts odd i :
  i < length parts ->
  nth i (mark_alt tag odd parts) "" =
  if xorb odd (Nat.odd i) then wrapped tag (nth i parts "")
  else nth i parts "".
Proof.
  revert odd i; induction parts as [| p ps IH]; intros odd [| i] Hi;
    cbn [length] in Hi; try lia.
  - cbn [mark_alt nth]. change (Nat.odd 0) with false.
    now rewrite xorb_false_r.
  - cbn [mark_alt nth]. rewrite IH by lia. rewrite Nat.odd_succ.
    rewrite <- Nat.negb_odd. now destruct odd, (Nat.odd i).
Qed.

(** The loop over the odd indices is the part-by-part reading. *)
Lemma mark_pairs_alt parts : mark_pairs tag parts = mark_alt tag false parts.
Proof.
  apply (nth_ext _ _ "" "").
  - now rewrite mark_pairs_length, mark_alt_length.
  - intros i Hi. rewrite mark_pairs_length in Hi.
    now rewrite mark_pairs_nth, mark_alt_nth by exact Hi.
Qed.

End MarkAlt.

Section Adjacent.

Variable d : ascii.

Lemma contains_twice s : contains s (twice d) = adjacent d s.
Proof.
  unfold contains, twice.
  induction s as [| x s IH]; [reflexivity |].
  cbn [String.index adjacent]. rewrite prefix_cons.
  assert (Hp : String.prefix (String d "") s = first_is d s).
  { destruct s as [| y s]; [reflexivity |].
    rewrite prefix_cons. cbn [first_is].
    rewrite Ascii.eqb_sym. destruct s; cbn; now rewrite andb_true_r. }
  rewrite Hp, (Ascii.eqb_sym d x).
  destruct (Ascii.eqb x d && first_is d s); [reflexivity |].
  cbn [orb]. rewrite <- IH. now destruct (String.index 0 _ s).
Qed.

Lemma first_is_app a b :
  first_is d (a ++ b) = if String.eqb a "" then first_is d b else first_is d a.
Proof. destruct a; reflexivity. Qed.

Lemma adjacent_app a b :
  adjacent d a = false -> adjacent d b = false ->
  last_is d a && first_is d b = false ->
  adjacent d (a ++ b) = false.
Proof.
  induction a as [| x a IH]; intros Ha Hb Hab; [exact Hb |].
  cbn [append adjacent] in *.
  apply orb_false_elim in Ha as [Hx Ha].
  destruct a as [| y a].
  - cbn [append last_is first_is] in *. now rewrite Hab, Hb.
  - cbn [append first_is] in *. rewrite Hx. cbn [orb].
    apply IH; assumption.
Qed.

(** A text without [d] has no pair of them and no [d] at either end. *)
Lemma free_of_d s :
  all_chars (fun ch => negb (Ascii.eqb ch d)) s = true ->
  adjacent d s = false /\ first_is d s = false /\ last_is d s = false.
Proof.
  induction s as [| x s IH]; [auto |].
  cbn [all_chars]. intros H. apply andb_prop in H as [Hx Hs].
  apply negb_true_iff in Hx. destruct (IH Hs) as (Ha & Hf & Hl).
  cbn [adjacent first_is last_is]. rewrite Hx, Ha.
  destruct s; auto.
Qed.

Lemma split_head_first s :
  first_is d (hd "" (split_go (twice d) 0 s)) = true -> first_is d s = true.
Proof.
  destruct s as [| y s]; [discriminate |].
  cbn [split_go]. destruct (String.prefix (twice d) (String y s)).
  - discriminate.
  - pose proof (split_go_nonempty (twice d) 0 s) as Hne.
    destruct (split_go (twice d) 0 s); [congruence | auto].
Qed.

(** No part of a split holds the delimiter. *)
Lemma split_parts_clean skip s :
  Forall (fun p => adjacent d p = false) (split_go (twice d) skip s).
Proof.
  revert skip; induction s as [| x s IH]; intros skip.
  - repeat constructor.
  - cbn [split_go]. destruct skip as [| k]; [| apply IH].
    destruct (String.prefix (twice d) (String x s)) eqn:Hp.
    + constructor; [reflexivity | apply IH].
    + pose proof (IH 0) as Hc. pose proof (split_head_first s) as Hf.
      pose proof (split_go_nonempty (twice d) 0 s) as Hne.
      destruct (split_go (twice d) 0 s) as [| p ps]; [congruence |].
      cbn [cons_head hd] in *. inversion Hc as [| ? ? Hp0 Hps]; subst.
      constructor; [| exact Hps].
      cbn [adjacent]. rewrite Hp0, orb_false_r.
      unfold twice in Hp. rewrite prefix_cons in Hp.
      destruct (Ascii.eqb x d) eqn:Hx; [| reflexivity].
      cbn [andb]. destruct (first_is d p) eqn:Hfp; [| reflexivity].
      apply Ascii.eqb_eq in Hx as ->. rewrite Ascii.eqb_refl in Hp.
      cbn [andb] in Hp. specialize (Hf eq_refl).
      destruct s as [| y s]; [discriminate |].
      rewrite prefix_cons in Hp. cbn [first_is] in Hf.
      rewrite Ascii.eqb_sym, Hf in Hp.
      destruct s; discriminate.
Qed.

Variable tag : string.
Hypothesis opening_free :
  all_chars (fun ch => negb (Ascii.eqb ch d)) ("<" ++ tag ++ ">") = true.
Hypothesis closing_free :
  all_chars (fun ch => negb (Ascii.eqb ch d)) ("</" ++ tag ++ ">") = true.

Lemma wrapped_then p rest :
  adjacent d p = false -> adjacent d rest = false ->
  adjacent d (wrapped tag p ++ rest) = false /\
  first_is d (wrapped tag p ++ rest) = false.
Proof.
  intros Hp Hr.
  destruct (free_of_d _ opening_free) as (Ho1 & Ho2 & Ho3).
  destruct (free_of_d _ closing_free) as (Hc1 & Hc2 & Hc3).
  replace (wrapped tag p ++ rest)
    with (("<" ++ tag ++ ">") ++ p ++ ("</" ++ tag ++ ">") ++ rest) by
    (unfold wrapped; now rewrite !append_assoc).
  split.
  - apply adjacent_app; [exact Ho1 | | now rewrite Ho3].
    apply adjacent_app; [exact Hp | |].
    + apply adjacent_app; [exact Hc1 | exact Hr | now rewrite Hc3].
    + change (first_is d (("</" ++ tag ++ ">") ++ rest))
        with (first_is d ("</" ++ tag ++ ">")).
      rewrite Hc2. apply andb_false_r.
  - exact Ho2.
Qed.

Lemma join_alt_clean parts odd :
  Forall (fun p => adjacent d p = false) parts ->
  adjacent d (join (mark_alt tag odd parts)) = false /\
  (odd = true -> first_is d (join (mark_alt tag odd parts)) = false).
Proof.
  intros Hc. revert odd.
  induction Hc as [| p ps Hp Hps IH]; intros odd; [split; reflexivity |].
  cbn [mark_alt]. rewrite join_cons.
  destruct (IH (negb odd)) as [Ha Hf].
  destruct odd; cbn [negb] in *.
  - destruct (wrapped_then p (join (mark_alt tag false ps)) Hp Ha).
    split; auto.
  - split; [| discriminate].
    apply adjacent_app; [exact Hp | exact Ha |].
    rewrite Hf by reflexivity. apply andb_false_r.
Qed.

End Adjacent.

(** X7.  For ['**'] and for ['__'], [bold_emphasis] returns a text in which the
    delimiter does not occur, whatever the line is. *)
Theorem bold_emphasis_leaves_no_delimiter (line markdown : string) :
  markdown = "**" \/ markdown = "__" ->
  exists modified_line,
    bold_emphasis line markdown = Ok modified_line /\
    contains modified_line markdown = false.
Proof.
  intros [-> | ->]; eexists;
    (split; [apply bold_emphasis_ok; discriminate |]).
  - rewrite (contains_twice "*" _ : contains _ "**" = _), mark_pairs_alt.
    apply (join_alt_clean "*" "b" eq_refl eq_refl).
    exact (split_parts_clean "*" 0 line).
  - rewrite (contains_twice "_" _ : contains _ "__" = _), mark_pairs_alt.
    apply (join_alt_clean "_" "em" eq_refl eq_refl).
    exact (split_parts_clean "_" 0 line).
Qed.

Lemma bold_emphasis_leaves_no_delimiter_witness :
  exists modified_line,
    bold_emphasis "a***b**c*" "**" = Ok modified_line /\
    contains modified_line "**" = false.
Proof.
  apply (bold_emphasis_leaves_no_delimiter "a***b**c*" "**").
  left; reflexivity.
Defined.

(** ** More on [bold_emphasis] *)

(** X9.  When the delimiter occurs an even number of times, the split has an odd
    number of parts and the final part is left as it is. *)
Theorem bold_emphasis_even_count_keeps_final (line markdown : string) :
  markdown <> "" ->
  Nat.even (count line markdown) = true ->
  exists parts,
    split line markdown = Ok parts /\
    Nat.odd (length parts) = true /\
    bold_emphasis line markdown
      = Ok (join (mark_pairs (tag_of markdown) parts)) /\
    last (mark_pairs (tag_of markdown) parts) "" = last parts "".
Proof.
  intros Hne Hev.
  exists (split_go markdown 0 line).
  pose proof (split_go_length markdown 0 line) as Hlen.
  fold (count line markdown) in Hlen.
  repeat split.
  - now apply split_ok.
  - now rewrite Hlen, Nat.odd_succ.
  - now apply bold_emphasis_ok.
  - rewrite !last_as_nth, mark_pairs_length, Hlen.
    replace (S (count line markdown) - 1) with (count line markdown) by lia.
    rewrite mark_pairs_nth by lia.
    now rewrite <- Nat.negb_even, Hev.
Qed.

Lemma bold_emphasis_even_count_keeps_final_witness :
  exists parts,
    split "a**b**c" "**" = Ok parts /\
    Nat.odd (length parts) = true /\
    bold_emphasis "a**b**c" "**" = Ok (join (mark_pairs (tag_of "**") parts)) /\
    last (mark_pairs (tag_of "**") parts) "" = last parts "".
Proof.
  apply (bold_emphasis_even_count_keeps_final "a**b**c" "**");
    [discriminate | reflexivity].
Defined.

(** ** Files the script leaves alone *)



